(** * flight_utils: rate normalisation and time reconstruction

    A shallow embedding of [flight_utils.py].  Numbers are IEEE binary64
    values (numpy's float64), modelled by Rocq's primitive floats, so that
    every arithmetic step of the source is the same operation here.  The
    netCDF file, the numpy arrays, the pandas frames and the file system
    are modelled by plain data; Python exceptions are values of [exn].

    What the model leaves out: masked entries and integer or float32
    storage of a variable (every value is a float64), netCDF groups,
    the normalisation of paths, and the text printed by the scanner.
    [datetime.fromisoformat] is the one of Python 3.11 and later. *)

From Stdlib Require Import PrimFloat FloatOps SpecFloat Uint63 ZArith.
From Stdlib Require Import Ascii String List Lia.
From stdpp Require Import gmap strings list sorting.

Local Open Scope nat_scope.

(** ** Exceptions and the error monad *)

Inductive exn : Set :=
| FileNotFoundError | NotADirectoryError | OSError
| IndexError | AttributeError | TypeError
| ValueError | OverflowError | RuntimeError.

Definition result (A : Type) : Type := (exn + A)%type.

Definition raise {A} (e : exn) : result A := inl e.
Definition ok {A} (a : A) : result A := inr a.

Definition bind {A B} (c : result A) (k : A -> result B) : result B :=
  match c with
  | inl e => inl e
  | inr a => k a
  end.

Declare Scope result_scope.
Delimit Scope result_scope with result.
Notation "x <- c ;; k" := (bind c (fun x => k))
  (at level 100, c at next level, right associativity) : result_scope.

(** A list comprehension whose element expression may raise: the first
    failing element aborts the whole comprehension. *)
Fixpoint traverse {A B} (f : A -> result B) (l : list A) : result (list B) :=
  match l with
  | [] => ok []
  | a :: l' =>
      (b <- f a ;;
       bs <- traverse f l' ;;
       ok (b :: bs))%result
  end.

(** ** Numbers *)

Definition float_of_Z (z : Z) : float := PrimFloat.of_uint63 (Uint63.of_Z z).
Definition float_of_nat (n : nat) : float := float_of_Z (Z.of_nat n).

Global Instance float_inhabited : Inhabited float := populate PrimFloat.zero.

(** [hz = 25] and [sub_seconds = np.arange(0,25,1)/25.] *)
Definition hz : nat := 25.
Definition sub_seconds : list float :=
  (fun k => (float_of_nat k / float_of_nat 25)%float) <$> seq 0 25.

(** ** Time reconstruction *)

Module Datetime.

(** A timezone-aware [datetime] at UTC offset zero: its proleptic
    Gregorian ordinal ([toordinal()], 0001-01-01 is day 1) and the
    microseconds elapsed since that day's midnight. *)
Record datetime : Set := mk_datetime { ordinal : Z; us_of_day : Z }.

(** A [timedelta], as its total number of microseconds. *)
Definition timedelta : Set := Z.

Definition us_per_second : Z := 1000000.
Definition us_per_day : Z := 86400 * us_per_second.
Definition max_ordinal : Z := 3652059.
Definition max_delta_days : Z := 999999999.

Definition is_leap (y : Z) : bool :=
  ((y mod 4 =? 0) && (negb (y mod 100 =? 0) || (y mod 400 =? 0)))%Z.

Definition days_in_month (y m : Z) : Z :=
  if (m =? 2)%Z then (if is_leap y then 29 else 28)%Z
  else if ((m =? 4) || (m =? 6) || (m =? 9) || (m =? 11))%Z then 30%Z
  else 31%Z.

Definition days_before_year (y : Z) : Z :=
  let y1 := (y - 1)%Z in
  (y1 * 365 + y1 / 4 - y1 / 100 + y1 / 400)%Z.

Definition days_before_month (y m : Z) : Z :=
  let cum := nth (Z.to_nat m) [0; 0; 31; 59; 90; 120; 151; 181; 212; 243; 273; 304; 334]%Z 0%Z in
  (cum + (if (2 <? m)%Z && is_leap y then 1 else 0))%Z.

Definition ymd2ord (y m d : Z) : Z :=
  (days_before_year y + days_before_month y m + d)%Z.

(** Decimal digits, as [datetime.fromisoformat] reads them. *)
Definition digit (c : ascii) : option Z :=
  let n := nat_of_ascii c in
  if (48 <=? n)%nat && (n <=? 57)%nat then Some (Z.of_nat (n - 48)) else None.

Fixpoint digits (acc : Z) (s : string) : option Z :=
  match s with
  | EmptyString => Some acc
  | String c s' =>
      match digit c with
      | Some d => digits (acc * 10 + d)%Z s'
      | None => None
      end
  end.

(** The calendar date [YYYY-MM-DD]: ten characters, a year in 1..9999,
    a month in 1..12 and a day that exists in that month. *)
Definition parse_date (s : string) : option (Z * Z * Z) :=
  match s with
  | String y1 (String y2 (String y3 (String y4 (String "-"%char
    (String m1 (String m2 (String "-"%char
    (String d1 (String d2 EmptyString))))))))) =>
      match digits 0 (String y1 (String y2 (String y3 (String y4 EmptyString)))),
            digits 0 (String m1 (String m2 EmptyString)),
            digits 0 (String d1 (String d2 EmptyString)) with
      | Some y, Some m, Some d =>
          if ((1 <=? y) && (1 <=? m) && (m <=? 12) && (1 <=? d)
              && (d <=? days_in_month y m))%Z
          then Some (y, m, d) else None
      | _, _, _ => None
      end
  | _ => None
  end.

Definition midnight_suffix : string := "T00:00:00+0000".

(** [datetime.fromisoformat], for the strings the source builds: a
    calendar date followed by the constant [T00:00:00+0000] (read by
    Python 3.11 and later as midnight at UTC offset zero).  The other
    date notations that Python accepts in front of that suffix (basic
    [YYYYMMDD], week dates) are outside this model and are answered
    with [ValueError]. *)
Definition fromisoformat (s : string) : result datetime :=
  if String.eqb (substring 10 (String.length s - 10) s) midnight_suffix then
    match parse_date (substring 0 10 s) with
    | Some (y, m, d) => ok (mk_datetime (ymd2ord y m d) 0)
    | None => raise ValueError
    end
  else raise ValueError.

(** Round a finite float to the nearest integer, ties to even
    (Python's [round] on a float). *)
Definition round_half_even (x : float) : Z :=
  match Prim2SF x with
  | S754_finite sg m e =>
      let mag :=
        if (0 <=? e)%Z then Z.shiftl (Z.pos m) e
        else
          let q := Z.shiftr (Z.pos m) (- e) in
          let r := (Z.pos m - Z.shiftl q (- e))%Z in
          let half := Z.shiftl 1 (- e - 1) in
          if (r <? half)%Z then q
          else if (half <? r)%Z then (q + 1)%Z
          else if Z.even q then q else (q + 1)%Z in
      if sg then (- mag)%Z else mag
  | _ => 0%Z
  end.

(** Integral part of a finite float, toward zero ([math.modf]). *)
Definition trunc (x : float) : Z :=
  match Prim2SF x with
  | S754_finite sg m e =>
      let mag := if (0 <=? e)%Z then Z.shiftl (Z.pos m) e
                 else Z.shiftr (Z.pos m) (- e) in
      if sg then (- mag)%Z else mag
  | _ => 0%Z
  end.

(** Fractional part of a finite float ([math.modf]); it is exact. *)
Definition frac (x : float) : float :=
  match Prim2SF x with
  | S754_finite sg m e =>
      if (0 <=? e)%Z then PrimFloat.zero
      else
        let q := Z.shiftr (Z.pos m) (- e) in
        match (Z.pos m - Z.shiftl q (- e))%Z with
        | Z.pos r => SF2Prim (S754_finite sg r e)
        | _ => PrimFloat.zero
        end
  | _ => PrimFloat.zero
  end.

(** [timedelta(seconds=float(s))]: the whole seconds, plus the
    fractional second scaled by [1e6] in floating point and rounded to
    a whole microsecond.  NaN raises [ValueError], an infinity or a
    span beyond 999999999 days raises [OverflowError]. *)
Definition timedelta_seconds (s : float) : result timedelta :=
  match Prim2SF s with
  | S754_nan => raise ValueError
  | S754_infinity _ => raise OverflowError
  | _ =>
      let us := (trunc s * us_per_second
                 + round_half_even (frac s * float_of_Z us_per_second)%float)%Z in
      if (Z.abs (us / us_per_day) <=? max_delta_days)%Z then ok us
      else raise OverflowError
  end.

(** [datetime + timedelta]; a result outside years 1..9999 raises
    [OverflowError]. *)
Definition add (t : datetime) (delta : timedelta) : result datetime :=
  let total := (ordinal t * us_per_day + us_of_day t + delta)%Z in
  let days := (total / us_per_day)%Z in
  if ((0 <? days) && (days <=? max_ordinal))%Z
  then ok (mk_datetime days (total mod us_per_day))
  else raise OverflowError.

End Datetime.

Import Datetime.

(** [str.split(sep)] with an explicit one-character separator: every
    occurrence of the separator splits, empty pieces are kept. *)
Fixpoint split (sep : ascii) (s : string) : list string :=
  match s with
  | EmptyString => [EmptyString]
  | String c s' =>
      if Ascii.eqb c sep then EmptyString :: split sep s'
      else match split sep s' with
           | w :: ws => String c w :: ws
           | [] => [String c EmptyString]
           end
  end.

(** [l[i]] on a Python list. *)
Definition index {A} (l : list A) (i : nat) : result A :=
  match l !! i with
  | Some a => ok a
  | None => raise IndexError
  end.

Definition sfm_to_datetime (sfm : list float) (tunits : string)
  : result (list datetime) :=
  (deltas <- traverse timedelta_seconds sfm ;;
   let tunits_split := split " "%char tunits in
   tok <- index tunits_split 2 ;;
   let t0_iso_str := substring 0 10 tok +:+ "T00:00:00+0000" in
   t0_dt <- fromisoformat t0_iso_str ;;
   traverse (fun delta => Datetime.add t0_dt delta) deltas)%result.

(** ** The netCDF file *)

(** What [nc[var][:]] returns: a numpy array, by rank.  A rank-2 array is
    the list of its rows (row-major, as numpy stores it); an array of
    higher rank carries its shape and its elements in storage order. *)
Inductive ndarray : Type :=
| Arr0 (x : float)
| Arr1 (v : list float)
| Arr2 (rows : list (list float))
| ArrN (shape : list nat) (flat : list float).

(** A netCDF variable: its [units] attribute, when it has one, and its
    values. *)
Record ncvar : Type := mk_ncvar { units : option string; values : ndarray }.

(** An opened [netCDF4.Dataset]: the names of its dimensions and its
    variables by name (no groups). *)
Record Dataset : Type :=
  mk_dataset { dimensions : list string; variables : gmap string ncvar }.

(** [nc[var]]; netCDF4 raises [IndexError] for a name it does not find. *)
Definition getitem (nc : Dataset) (var : string) : result ncvar :=
  match variables nc !! var with
  | Some v => ok v
  | None => raise IndexError
  end.

(** [getattr(v, 'units')] *)
Definition getattr_units (v : ncvar) : result string :=
  match units v with
  | Some u => ok u
  | None => raise AttributeError
  end.

(** [len(np.shape(a))] *)
Definition ndims (a : ndarray) : nat :=
  match a with
  | Arr0 _ => 0
  | Arr1 _ => 1
  | Arr2 _ => 2
  | ArrN shape _ => length shape
  end.

(** [np.ravel(a)] *)
Definition ravel (a : ndarray) : list float :=
  match a with
  | Arr0 x => [x]
  | Arr1 v => v
  | Arr2 rows => concat rows
  | ArrN _ flat => flat
  end.

(** [len(a)]: the first dimension; a rank-0 array has no [len]. *)
Definition len (a : ndarray) : result nat :=
  match a with
  | Arr0 _ => raise TypeError
  | Arr1 v => ok (length v)
  | Arr2 rows => ok (length rows)
  | ArrN shape _ => ok (hd 0 shape)
  end.

(** The values that [m[:,i] = a + inc] stores down a column of
    [len(a)] cells.  A rank-1 array fits as it is; numpy drops leading
    dimensions of size one from the assigned value, so an array whose
    dimensions are all one fits too; anything else cannot be broadcast
    ([ValueError]).  A rank-0 array never gets here: [len] has raised. *)
Definition column_view (a : ndarray) : result (list float) :=
  match a with
  | Arr0 _ => raise TypeError
  | Arr1 v => ok v
  | Arr2 [[x]] => ok [x]
  | Arr2 _ => raise ValueError
  | ArrN shape [x] =>
      if forallb (Nat.eqb 1) shape then ok [x] else raise ValueError
  | ArrN _ _ => raise ValueError
  end.

(** ** Tables *)

(** A column of a frame: numbers, or timestamps ([None] is pandas'
    missing timestamp, [NaT]). *)
Inductive column : Type :=
| FloatCol (l : list float)
| DateCol (l : list (option datetime)).

(** A one-column [pd.DataFrame({name: values})]. *)
Definition frame : Type := (string * column)%type.

(** A table: its named columns, left to right. *)
Definition DataFrame : Type := list (string * column).

Definition keys (df : DataFrame) : list string := fst <$> df.

Definition col_length (c : column) : nat :=
  match c with
  | FloatCol l => length l
  | DateCol l => length l
  end.

(** [pd.DataFrame({name: a})] for an array read from the file: pandas
    takes rank-1 arrays only. *)
Definition frame_of_array (name : string) (a : ndarray) : result frame :=
  match a with
  | Arr1 v => ok (name, FloatCol v)
  | _ => raise ValueError
  end.

Definition frame_of_dates (name : string) (l : list datetime) : frame :=
  (name, DateCol (Some <$> l)).

(** Rows that a shorter column lacks are filled with missing values. *)
Definition pad (n : nat) (c : column) : column :=
  match c with
  | FloatCol l => FloatCol (l ++ replicate (n - length l) nan)
  | DateCol l => DateCol (l ++ replicate (n - length l) None)
  end.

Definition nrows (data : list frame) : nat :=
  max_list ((fun f => col_length (snd f)) <$> data).

(** [pd.concat(data, axis=1, ignore_index=False)]: the frames side by
    side, aligned on their row numbers; pandas raises [ValueError] when
    there is nothing to concatenate. *)
Definition pd_concat (data : list frame) : result DataFrame :=
  match data with
  | [] => raise ValueError
  | _ => ok ((fun f => (fst f, pad (nrows data) (snd f))) <$> data)
  end.

(** ** The body of one [try] block

    The block appends to the list [data] as it goes and may raise half
    way: a computation takes the list and returns it with the outcome. *)

Definition M (A : Type) : Type := list frame -> list frame * result A.

Definition bind_m {A B} (c : M A) (k : A -> M B) : M B :=
  fun data =>
    match c data with
    | (data', inl e) => (data', inl e)
    | (data', inr a) => k a data'
    end.

Definition lift {A} (r : result A) : M A := fun data => (data, r).

(** [data.append(f)] *)
Definition append (f : frame) : M unit := fun data => (data ++ [f], ok tt).

(** [try: c  except Exception: pass] *)
Definition try_pass (c : M unit) (data : list frame) : list frame := fst (c data).

Declare Scope m_scope.
Delimit Scope m_scope with M.
Notation "x <~ c ;; k" := (bind_m c (fun x => k))
  (at level 100, c at next level, right associativity) : m_scope.
Notation "c ;;; k" := (bind_m c (fun _ => k))
  (at level 100, right associativity) : m_scope.

(** ** The 25 Hz reader *)

(** [np.zeros((n, m))] *)
Definition zeros (n m : nat) : list (list float) :=
  replicate n (replicate m PrimFloat.zero).

(** [m[:,i] = col] *)
Definition set_column (i : nat) (col : list float) (m : list (list float))
  : list (list float) :=
  zip_with (fun row x => <[i := x]> row) m col.

(** [enumerate(l)] *)
Definition enumerate {A} (l : list A) : list (nat * A) :=
  combine (seq 0 (length l)) l.

(** Lines 88-91: the grid of sub-second times, raveled. *)
Definition time_grid (time : list float) : list (list float) :=
  fold_left
    (fun time_25hz '(i, inc) =>
       set_column i ((fun t => (t + inc)%float) <$> time) time_25hz)
    (enumerate sub_seconds)
    (zeros (length time) hz).

(** Line 108: [output_1d[i] + sub_seconds*(output_1d[i+1]-output_1d[i])] *)
Definition interp_row (output_1d : list float) (i : nat) : list float :=
  let x := output_1d !!! i in
  let y := output_1d !!! (i + 1) in
  (fun s => (x + s * (y - x))%float) <$> sub_seconds.

(** Line 106: [np.zeros((n, m))*float("NaN")] *)
Definition nan_grid (n m : nat) : list (list float) :=
  (fun row : list float => (fun z => (z * nan)%float) <$> row) <$> zeros n m.

(** Lines 106-108: a grid of NaN whose rows, but the last, are filled. *)
Definition interp_grid (output_1d : list float) : list (list float) :=
  fold_left
    (fun output_2d i => <[i := interp_row output_1d i]> output_2d)
    (seq 0 (length output_1d - 1))
    (nan_grid (length output_1d) hz).

Definition body_25hz (nc : Dataset) (var : string) : M unit :=
  (if String.eqb var "Time" then
     v <~ lift (getitem nc var) ;;
     tunits <~ lift (getattr_units v) ;;
     let time := values v in
     _ <~ lift (len time) ;;
     col <~ lift (column_view time) ;;
     let output := concat (time_grid col) in
     append (var, FloatCol output) ;;;
     dt_list <~ lift (sfm_to_datetime output tunits) ;;
     append (frame_of_dates "datetime" dt_list)
   else
     v <~ lift (getitem nc var) ;;
     let a := values v in
     if ndims a =? 2 then
       let output := ravel a in
       append (var, FloatCol output)
     else if ndims a =? 1 then
       let output_1d := ravel a in
       let output := concat (interp_grid output_1d) in
       append (var, FloatCol output)
     else lift (raise RuntimeError))%M.

Definition collect_25hz (nc : Dataset) (read_vars : list string) : list frame :=
  fold_left (fun data var => try_pass (body_25hz nc var) data) read_vars [].

Definition read_flight_nc_25hz (nc : Dataset) (read_vars : list string)
  : result DataFrame :=
  pd_concat (collect_25hz nc read_vars).

(** ** The 1 Hz reader *)

Definition body_1hz (nc : Dataset) (var : string) : M unit :=
  (if String.eqb var "Time" then
     v <~ lift (getitem nc var) ;;
     tunits <~ lift (getattr_units v) ;;
     let time := values v in
     f <~ lift (frame_of_array var time) ;;
     append f ;;;
     dt_list <~ lift (sfm_to_datetime (ravel time) tunits) ;;
     append (frame_of_dates "datetime" dt_list)
   else
     v <~ lift (getitem nc var) ;;
     let output := values v in
     f <~ lift (frame_of_array var output) ;;
     append f)%M.

Definition collect_1hz (nc : Dataset) (read_vars : list string) : list frame :=
  fold_left (fun data var => try_pass (body_1hz nc var) data) read_vars [].

Definition read_flight_nc_1hz (nc : Dataset) (read_vars : list string)
  : result DataFrame :=
  pd_concat (collect_1hz nc read_vars).

(** ** Rate dispatch *)

Definition has_sps25 (nc : Dataset) : bool :=
  bool_decide ("sps25" ∈ dimensions nc).

Definition read_flight_nc (nc : Dataset) (read_vars : list string)
  : result DataFrame :=
  if has_sps25 nc then read_flight_nc_25hz nc read_vars
  else read_flight_nc_1hz nc read_vars.

(** ** The file system *)

(** What a path names: a directory with the names it lists, a netCDF
    file with the data set that opening it returns, or some other file. *)
Inductive node : Type :=
| Dir (entries : list string)
| NcFile (nc : Dataset)
| OtherFile.

(** [pathlib.Path(p).is_file()] *)
Definition is_file (fs : gmap string node) (p : string) : bool :=
  match fs !! p with
  | Some (NcFile _) | Some OtherFile => true
  | _ => false
  end.

(** [netCDF4.Dataset(p)] *)
Definition netCDF4_Dataset (fs : gmap string node) (p : string) : result Dataset :=
  match fs !! p with
  | Some (NcFile nc) => ok nc
  | Some _ => raise OSError
  | None => raise FileNotFoundError
  end.

(** [os.listdir(p)] *)
Definition listdir (fs : gmap string node) (p : string) : result (list string) :=
  match fs !! p with
  | Some (Dir entries) => ok entries
  | Some _ => raise NotADirectoryError
  | None => raise FileNotFoundError
  end.

(** [fnmatch(fname, "*.nc")] (on a case-sensitive system) *)
Definition fnmatch_nc (fname : string) : bool :=
  let n := String.length fname in
  (3 <=? n) && String.eqb (substring (n - 3) 3 fname) ".nc".

(** [sorted] on strings: the one ordered arrangement of the names. *)
Definition sorted (l : list string) : list string := merge_sort String.le l.

Definition find_flight_fnames (fs : gmap string node) (dir_path : string)
  : result (list string) :=
  (names <- listdir fs dir_path ;;
   ok (sorted (List.filter fnmatch_nc names)))%result.

Definition open_flight_nc (fs : gmap string node) (file_path : string)
  : result Dataset :=
  if negb (is_file fs file_path) then raise FileNotFoundError
  else netCDF4_Dataset fs file_path.

(** ** The scanner *)

(** A Python [dict] with string keys, in insertion order. *)
Definition dict (V : Type) : Type := list (string * V).

(** [d[k] = v]: a key already there keeps its place. *)
Fixpoint dict_set {V} (k : string) (v : V) (d : dict V) : dict V :=
  match d with
  | [] => [(k, v)]
  | (k', v') :: d' =>
      if String.eqb k' k then (k', v) :: d' else (k', v') :: dict_set k v d'
  end.

(** A [for] loop whose body may raise: the first exception ends it. *)
Fixpoint for_each {A S} (body : S -> A -> result S) (l : list A) (s : S)
  : result S :=
  match l with
  | [] => ok s
  | a :: l' => (s' <- body s a ;; for_each body l' s')%result
  end.

Definition vars_to_read : list string :=
  ["Time"; "GGALT"; "LATC"; "LONC"; "UIC"; "VIC"; "WIC"; "ATX"; "PSFC"; "EWX"].

(** Lines 193-194, the body of the loop over the files of a campaign. *)
Definition read_one (fs : gmap string node) (campaign_dir : string)
    (read_vars : list string) (flight_dict : dict DataFrame) (fname : string)
  : result (dict DataFrame) :=
  (flight_nc <- open_flight_nc fs (campaign_dir +:+ "/" +:+ fname) ;;
   df <- read_flight_nc flight_nc read_vars ;;
   ok (dict_set fname df flight_dict))%result.

(** Lines 187-195, the body of the loop over the campaigns (the
    [print] apart). *)
Definition read_campaign (fs : gmap string node) (data_dir : string)
    (read_vars : list string) (all_campaign_nc : dict (dict DataFrame))
    (campaign : string)
  : result (dict (dict DataFrame)) :=
  (let campaign_dir := data_dir +:+ "/" +:+ campaign +:+ "/lrt" in
   flight_fnames <- find_flight_fnames fs campaign_dir ;;
   flight_dict <- for_each (read_one fs campaign_dir read_vars) flight_fnames [] ;;
   ok (dict_set campaign flight_dict all_campaign_nc))%result.

Definition read_all_flights (fs : gmap string node) (data_dir : string)
    (field_campaigns : list string) (read_vars : list string)
  : result (dict (dict DataFrame)) :=
  for_each (read_campaign fs data_dir read_vars) field_campaigns [].

(** ** The flight record *)

Module flight_obj.

Record t : Type := mk {
  file_path : string;
  read_vars_attempted : list string;
  nc : Dataset;
  df : DataFrame;
  rate : string;
  read_vars : list string
}.

(** [flight_obj.__init__] *)
Definition init (fs : gmap string node) (path : string)
    (vars : list string) : result t :=
  (ds <- (if is_file fs path then netCDF4_Dataset fs path
          else raise FileNotFoundError) ;;
   if has_sps25 ds then
     table <- read_flight_nc_25hz ds vars ;;
     ok (mk path vars ds table "25Hz" (keys table))
   else
     table <- read_flight_nc_1hz ds vars ;;
     ok (mk path vars ds table "1Hz" (keys table)))%result.

End flight_obj.

(** ** Both readers at once

    The two readers differ in the body of their [try] block only; the
    statements that hold of either are made over [reader]. *)

Inductive reader : Set := Reader1Hz | Reader25Hz.

Definition body (r : reader) : Dataset -> string -> M unit :=
  match r with Reader1Hz => body_1hz | Reader25Hz => body_25hz end.
Definition collect (r : reader) : Dataset -> list string -> list frame :=
  match r with Reader1Hz => collect_1hz | Reader25Hz => collect_25hz end.
Definition read (r : reader) : Dataset -> list string -> result DataFrame :=
  match r with Reader1Hz => read_flight_nc_1hz | Reader25Hz => read_flight_nc_25hz end.
(** The frames one variable leaves in [data]. *)
Definition frames (r : reader) (nc : Dataset) (var : string) : list frame :=
  try_pass (body r nc var) [].

(** A computation that only ever appends to [data]. *)
Definition appends {A} (c : M A) : Prop :=
  exists fs r, forall data, c data = (data ++ fs, r).

(** The reader that the rate dispatch selects. *)
Definition reader_of (nc : Dataset) : reader :=
  if has_sps25 nc then Reader25Hz else Reader1Hz.

(** ** Sample files *)

Definition good_units : string := "seconds since 2020-01-01 00:00:00 +0000".

(** Two seconds of a 25 Hz file. *)
Definition sample_25hz : Dataset :=
  mk_dataset ["Time"; "sps25"]
    (<["Time" := mk_ncvar (Some good_units) (Arr1 [10%float; 11%float])]>
     (<["GGALT" := mk_ncvar None (Arr1 [100%float; 200%float])]>
      (<["UIC" := mk_ncvar None (Arr2 [replicate 25 1%float; replicate 25 2%float])]>
       ∅))).

(** A 1 Hz file whose time units cannot be parsed. *)
Definition sample_bad_units : Dataset :=
  mk_dataset ["Time"]
    (<["Time" := mk_ncvar (Some "bogus") (Arr1 [10%float; 11%float])]> ∅).

Definition sample_fs : gmap string node :=
  <["data/ORCAS/lrt" := Dir ["rf02.nc"; "notes.txt"; "rf01.nc"]]>
  (<["data/ORCAS/lrt/rf01.nc" := NcFile sample_25hz]>
   (<["data/ORCAS/lrt/rf02.nc" := NcFile sample_bad_units]>
    (<["data/CSET/lrt" := Dir ["notes.txt"]]> ∅))).

(** ** Vocabulary of the statements about time *)

(** The reference instant of a date: its midnight, at UTC offset zero. *)
Definition midnight (y m d : Z) : datetime := mk_datetime (ymd2ord y m d) 0.

(** An instant as microseconds since the midnight that starts day 0. *)
Definition instant (t : datetime) : Z :=
  (ordinal t * us_per_day + us_of_day t)%Z.

(** An offset that [timedelta] accepts and that leads from [t0] to a
    date within years 1..9999. *)
Definition representable (t0 : datetime) (s : float) : Prop :=
  exists delta t, timedelta_seconds s = ok delta /\ Datetime.add t0 delta = ok t.

(** Whether a character occurs in a string. *)
Fixpoint occurs (sep : ascii) (s : string) : bool :=
  match s with
  | EmptyString => false
  | String c s' => Ascii.eqb c sep || occurs sep s'
  end.

(** The raw 25 Hz time column of [sample_25hz], its timestamps, and the
    record built from the request [Time]. *)
Definition sample_time_25hz : list float :=
  Eval vm_compute in concat (time_grid [10%float; 11%float]).

Definition sample_datetimes : list datetime :=
  Eval vm_compute in
    match sfm_to_datetime sample_time_25hz good_units with
    | inr dts => dts
    | inl _ => []
    end.

Definition sample_record : flight_obj.t :=
  flight_obj.mk "data/ORCAS/lrt/rf01.nc" ["Time"] sample_25hz
    [("Time", FloatCol sample_time_25hz);
     ("datetime", DateCol (Some <$> sample_datetimes))]
    "25Hz" ["Time"; "datetime"].

(** ** The calendar and the value of an offset, said independently *)

(** The length of a year. *)
Definition year_days (y : Z) : Z := if is_leap y then 366%Z else 365%Z.

(** The days of the years 1 to [n], and of the months 1 to [n] of a
    year. *)
Fixpoint days_of_years (n : nat) : Z :=
  match n with
  | O => 0%Z
  | S k => (days_of_years k + year_days (Z.of_nat (S k)))%Z
  end.

Fixpoint days_of_months (y : Z) (n : nat) : Z :=
  match n with
  | O => 0%Z
  | S k => (days_of_months y k + days_in_month y (Z.of_nat (S k)))%Z
  end.

(** The ordinal of a date by counting days: those of the years before
    it, those of the months before it in its year, and its day of the
    month; 0001-01-01 is day 1. *)
Definition ordinal_by_counting (y m d : Z) : Z :=
  (days_of_years (Z.to_nat (y - 1)) + days_of_months y (Z.to_nat (m - 1)) + d)%Z.

(** A date of the calendar, years 1 to 9999. *)
Definition valid_date (y m d : Z) : Prop :=
  (1 <= y <= 9999 /\ 1 <= m <= 12 /\ 1 <= d <= days_in_month y m)%Z.

(** A date written [YYYY-MM-DD], in zero-padded decimal. *)
Definition digit_char (k : Z) : ascii := ascii_of_nat (48 + Z.to_nat k).

Definition render2 (n : Z) : string :=
  String (digit_char (n / 10)) (String (digit_char (n mod 10)) EmptyString).

Definition render4 (n : Z) : string :=
  String (digit_char (n / 1000))
    (String (digit_char (n / 100 mod 10)) (render2 (n mod 100))).

Definition render_date (y m d : Z) : string :=
  render4 y +:+ "-" +:+ render2 m +:+ "-" +:+ render2 d.

(** A float whose value is the whole number [n]: its sign, mantissa and
    exponent, as IEEE 754 reads them, say so. *)
Definition whole_seconds (s : float) (n : Z) : Prop :=
  match Prim2SF s with
  | S754_zero _ => n = 0%Z
  | S754_finite sg mant e =>
      let a := if sg then Z.neg mant else Z.pos mant in
      if (0 <=? e)%Z then n = (a * 2 ^ e)%Z else a = (n * 2 ^ (- e))%Z
  | _ => False
  end.

(** ** Vocabulary of the further properties *)

(** The shape that a variable covering [N] seconds has in a 25 Hz file:
    one value per second, or 25 values per second. *)
Definition seconds_shaped (N : nat) (a : ndarray) : Prop :=
  (exists v, a = Arr1 v /\ length v = N)
  \/ (exists rows, a = Arr2 rows /\ length rows = N
                   /\ Forall (fun row => length row = 25) rows).

(** The columns a request asks for, left to right: each name, and
    [datetime] after [Time]. *)
Definition with_datetime (vars : list string) : list string :=
  concat ((fun var => if String.eqb var "Time" then ["Time"; "datetime"] else [var])
            <$> vars).

(** Lines 28-31 of [sfm_to_datetime]: the reference instant that a units
    string stands for. *)
Definition reference_instant (tunits : string) : result datetime :=
  (tok <- index (split " "%char tunits) 2 ;;
   fromisoformat (substring 0 10 tok +:+ "T00:00:00+0000"))%result.

(** How often a character occurs in a string. *)
Fixpoint count_char (sep : ascii) (s : string) : nat :=
  match s with
  | EmptyString => 0
  | String c s' => (if Ascii.eqb c sep then 1 else 0) + count_char sep s'
  end.

(** An offset that [timedelta] accepts. *)
Definition convertible (s : float) : Prop :=
  exists delta, timedelta_seconds s = ok delta.

(** One second of a 25 Hz file. *)
Definition sample_one_second : Dataset :=
  mk_dataset ["Time"; "sps25"]
    (<["GGALT" := mk_ncvar None (Arr1 [100%float])]> ∅).

(** The table of [sample_25hz] for all three of its variables, and the
    result of scanning the campaign [ORCAS] of [sample_fs] for [Time]. *)
Definition sample_table : DataFrame :=
  Eval vm_compute in
    match read_flight_nc_25hz sample_25hz ["Time"; "GGALT"; "UIC"] with
    | inr df => df
    | inl _ => []
    end.

Definition sample_scan : dict (dict DataFrame) :=
  Eval vm_compute in
    match read_all_flights sample_fs "data" ["ORCAS"] ["Time"] with
    | inr d => d
    | inl _ => []
    end.

(** * Properties *)

(** ** Arrays *)

Section grids.
Context {A : Type}.
Implicit Types (rows : list (list A)) (row : list A).

Lemma length_concat_uniform c rows :
  Forall (fun row => length row = c) rows ->
  length (concat rows) = length rows * c.
Proof.
  induction 1 as [|row rows Hrow _ IH]; [done|].
  cbn. rewrite length_app, IH, Hrow. done.
Qed.

Lemma lookup_concat_uniform c rows i k row :
  Forall (fun row => length row = c) rows ->
  rows !! i = Some row -> k < c ->
  concat rows !! (i * c + k) = row !! k.
Proof.
  intros Hall. revert i.
  induction Hall as [|r rows Hr _ IH]; intros i Hi Hk; [done|].
  destruct i as [|i]; cbn in *.
  - injection Hi as ->. apply lookup_app_l. lia.
  - rewrite lookup_app_r by lia.
    replace (c + i * c + k - length r) with (i * c + k) by lia.
    by apply IH.
Qed.

(** A loop that stores [g i] at every index below [n]. *)
Lemma fold_insert_seq (g : nat -> A) n (l : list A) :
  n <= length l ->
  fold_left (fun acc i => <[i := g i]> acc) (seq 0 n) l
  = (g <$> seq 0 n) ++ drop n l.
Proof.
  induction n as [|n IH]; intros Hn; [done|].
  rewrite seq_S, fold_left_app, fmap_app. cbn.
  rewrite IH by lia.
  destruct (lookup_lt_is_Some_2 l n) as [y Hy]; [lia|].
  rewrite (drop_S l y n Hy).
  rewrite insert_app_r_alt; rewrite length_fmap, length_seq; [|lia].
  rewrite Nat.sub_diag. cbn. by rewrite <- app_assoc.
Qed.
End grids.

Lemma sub_seconds_lookup k :
  k < 25 -> sub_seconds !! k = Some (float_of_nat k / 25)%float.
Proof.
  intros Hk. unfold sub_seconds.
  rewrite list_lookup_fmap, lookup_seq_lt by done. reflexivity.
Qed.

Lemma nan_grid_replicate n : nan_grid n hz = replicate n (replicate 25 nan).
Proof.
  unfold nan_grid, zeros. rewrite fmap_replicate. reflexivity.
Qed.

Lemma interp_grid_rows v :
  interp_grid v
  = (interp_row v <$> seq 0 (length v - 1))
    ++ replicate (length v - (length v - 1)) (replicate 25 nan).
Proof.
  unfold interp_grid. rewrite nan_grid_replicate.
  rewrite fold_insert_seq by (rewrite length_replicate; lia).
  by rewrite drop_replicate.
Qed.

Lemma interp_row_length v i : length (interp_row v i) = 25.
Proof. unfold interp_row. by rewrite length_fmap. Qed.

Lemma interp_grid_uniform v :
  Forall (fun row => length row = 25) (interp_grid v).
Proof.
  rewrite interp_grid_rows. apply Forall_app. split.
  - apply Forall_fmap, Forall_forall. intros i _. apply interp_row_length.
  - apply Forall_replicate. by rewrite length_replicate.
Qed.

Lemma interp_grid_length v : length (interp_grid v) = length v.
Proof.
  rewrite interp_grid_rows, length_app, length_fmap, length_seq, length_replicate.
  lia.
Qed.

Lemma zip_with_nested {A B} (g h : A -> B -> A) (l : list A) (k : list B) :
  zip_with g (zip_with h l k) k = zip_with (fun a b => g (h a b) b) l k.
Proof.
  revert k. induction l as [|a l IH]; intros [|b k]; cbn; [done..|].
  by rewrite IH.
Qed.

Lemma zip_with_keep {A B} (l : list A) (k : list B) :
  length l = length k -> zip_with (fun a _ => a) l k = l.
Proof.
  revert k. induction l as [|a l IH]; intros [|b k] Hlen; cbn in *; [done..|].
  rewrite IH; [done|lia].
Qed.

(** Storing columns one after the other is a loop over each row. *)
Lemma fold_set_column (f : float -> float -> float) cols :
  forall (m : list (list float)) (time : list float),
  length m = length time ->
  fold_left (fun acc '(i, inc) => set_column i ((fun t => f t inc) <$> time) acc) cols m
  = zip_with (fun row t => fold_left (fun r '(i, inc) => <[i := f t inc]> r) cols row)
      m time.
Proof.
  induction cols as [|[i inc] cols IH]; intros m time Hlen; cbn.
  - by rewrite zip_with_keep.
  - rewrite IH.
    + unfold set_column. rewrite zip_with_fmap_r. by rewrite zip_with_nested.
    + unfold set_column. rewrite length_zip_with, length_fmap. lia.
Qed.

Lemma time_grid_rows (time : list float) :
  time_grid time
  = (fun t => (fun inc => (t + inc)%float) <$> sub_seconds) <$> time.
Proof.
  unfold time_grid, zeros.
  rewrite (fold_set_column PrimFloat.add) by (by rewrite length_replicate).
  rewrite zip_with_replicate_l by done.
  apply list_fmap_ext. intros _ t _. reflexivity.
Qed.

Lemma time_grid_uniform time :
  Forall (fun row => length row = 25) (time_grid time).
Proof.
  rewrite time_grid_rows. apply Forall_fmap, Forall_forall. intros t _.
  reflexivity.
Qed.

(** ** The error monad *)

Lemma traverse_Forall2 {A B} (f : A -> result B) l l' :
  traverse f l = ok l' <-> Forall2 (fun a b => f a = ok b) l l'.
Proof.
  revert l'. induction l as [|a l IH]; intros l'; cbn.
  - split.
    + intros [= <-]. constructor.
    + by intros ->%Forall2_nil_inv_l.
  - unfold bind. destruct (f a) as [e|b] eqn:Hfa.
    + split; [done|]. intros (b & k & Hb & _ & _)%Forall2_cons_inv_l.
      unfold ok in Hb. congruence.
    + destruct (traverse f l) as [e|bs] eqn:Htr.
      * split; [done|]. intros (b' & k & _ & Hk & ->)%Forall2_cons_inv_l.
        apply IH in Hk. discriminate.
      * split.
        -- intros [= <-]. constructor; [done|]. by apply IH.
        -- intros (b' & k & Hb & Hk & ->)%Forall2_cons_inv_l.
           apply IH in Hk. unfold ok in *. congruence.
Qed.

Lemma traverse_length {A B} (f : A -> result B) l l' :
  traverse f l = ok l' -> length l' = length l.
Proof. intros H%traverse_Forall2. symmetry. by eapply Forall2_length. Qed.

Lemma sfm_to_datetime_length sfm tunits dts :
  sfm_to_datetime sfm tunits = ok dts -> length dts = length sfm.
Proof.
  unfold sfm_to_datetime, bind.
  destruct (traverse timedelta_seconds sfm) as [|deltas] eqn:Hd; [done|].
  destruct (index _ 2) as [|tok]; [done|].
  destruct (fromisoformat _) as [|t0]; [done|].
  intros H%traverse_length. apply traverse_length in Hd. congruence.
Qed.

(** ** The 25 Hz reader, variable by variable *)

(** C1. In the 25 Hz reader a variable other than [Time] stored once per
    second, with values [v] of length [N], yields one column of [N*25]
    values: entry [i*25+k] is [v[i] + (k/25)*(v[i+1]-v[i])] for every
    second [i] that has a successor and every [k] in 0..24, and the 25
    entries of the last second are NaN. *)
Theorem interp_25hz_column nc var vr v data :
  var <> "Time" -> variables nc !! var = Some vr -> values vr = Arr1 v ->
  exists out,
    body_25hz nc var data = (data ++ [(var, FloatCol out)], ok tt)
    /\ length out = length v * 25
    /\ (forall i k x y, v !! i = Some x -> v !! (i + 1) = Some y -> k < 25 ->
          out !! (i * 25 + k) = Some (x + (float_of_nat k / 25) * (y - x))%float)
    /\ (forall k, 0 < length v -> k < 25 ->
          out !! ((length v - 1) * 25 + k) = Some nan).
Proof.
  intros Hvar Hvr Hv. exists (concat (interp_grid v)). repeat split.
  - unfold body_25hz. apply String.eqb_neq in Hvar as ->.
    unfold bind_m, lift, getitem. rewrite Hvr. cbv beta iota delta [ok].
    rewrite Hv. reflexivity.
  - rewrite (length_concat_uniform 25) by apply interp_grid_uniform.
    by rewrite interp_grid_length.
  - intros i k x y Hx Hy Hk.
    assert (i < length v - 1) as Hi.
    { apply lookup_lt_Some in Hy. lia. }
    rewrite (lookup_concat_uniform 25 _ _ _ (interp_row v i));
      [|apply interp_grid_uniform| |done].
    + unfold interp_row.
      rewrite (list_lookup_total_correct _ _ _ Hx), (list_lookup_total_correct _ _ _ Hy).
      rewrite list_lookup_fmap, sub_seconds_lookup by done. reflexivity.
    + rewrite interp_grid_rows, lookup_app_l by (rewrite length_fmap, length_seq; lia).
      by rewrite list_lookup_fmap, lookup_seq_lt.
  - intros k Hlen Hk.
    rewrite (lookup_concat_uniform 25 _ _ _ (replicate 25 nan));
      [|apply interp_grid_uniform| |done].
    + by apply lookup_replicate_2.
    + rewrite interp_grid_rows, lookup_app_r; rewrite length_fmap, length_seq; [|lia].
      apply lookup_replicate_2. lia.
Qed.

(** C5. In the 25 Hz reader a variable other than [Time] stored as [N]
    rows of 25 values yields one column of [N*25] values, the rows one
    after the other: entry [i*25+k] is the value at row [i], position
    [k], unchanged. *)
Theorem ravel_25hz_column nc var vr rows data :
  var <> "Time" -> variables nc !! var = Some vr -> values vr = Arr2 rows ->
  Forall (fun row => length row = 25) rows ->
  body_25hz nc var data = (data ++ [(var, FloatCol (concat rows))], ok tt)
  /\ length (concat rows) = length rows * 25
  /\ (forall i k row, rows !! i = Some row -> k < 25 ->
        concat rows !! (i * 25 + k) = row !! k).
Proof.
  intros Hvar Hvr Hv Hrows. repeat split.
  - unfold body_25hz. apply String.eqb_neq in Hvar as ->.
    unfold bind_m, lift, getitem. rewrite Hvr. cbv beta iota delta [ok].
    rewrite Hv. reflexivity.
  - by apply length_concat_uniform.
  - intros i k row Hrow Hk. by apply lookup_concat_uniform.
Qed.

(** C2. In the 25 Hz reader [Time], stored once per second with offsets
    [t] of length [N], yields a raw column of [N*25] values whose entry
    [i*25+k] is [t[i] + k/25], followed by a [datetime] column of the
    same length, which is the time reconstruction of exactly that raw
    column. *)
Theorem time_25hz_columns nc vr t u dts data :
  variables nc !! "Time" = Some vr -> values vr = Arr1 t -> units vr = Some u ->
  sfm_to_datetime (concat (time_grid t)) u = ok dts ->
  exists out,
    body_25hz nc "Time" data
    = (data ++ [("Time", FloatCol out); ("datetime", DateCol (Some <$> dts))], ok tt)
    /\ length out = length t * 25
    /\ (forall i k x, t !! i = Some x -> k < 25 ->
          out !! (i * 25 + k) = Some (x + float_of_nat k / 25)%float)
    /\ sfm_to_datetime out u = ok dts
    /\ length dts = length out.
Proof.
  intros Hvr Ht Hu Hdts. exists (concat (time_grid t)). repeat split.
  - unfold body_25hz. rewrite String.eqb_refl.
    unfold bind_m, lift, getitem, getattr_units, append.
    rewrite Hvr. cbv beta iota delta [ok]. rewrite Hu, Ht.
    cbv beta iota delta [ok len column_view]. rewrite Hdts.
    unfold frame_of_dates. cbv beta iota delta [ok]. by rewrite <- app_assoc.
  - rewrite (length_concat_uniform 25) by apply time_grid_uniform.
    by rewrite time_grid_rows, length_fmap.
  - intros i k x Hx Hk.
    rewrite (lookup_concat_uniform 25 _ _ _ ((fun inc => (x + inc)%float) <$> sub_seconds));
      [|apply time_grid_uniform| |done].
    + by rewrite list_lookup_fmap, sub_seconds_lookup.
    + by rewrite time_grid_rows, list_lookup_fmap, Hx.
  - done.
  - by eapply sfm_to_datetime_length.
Qed.

(** ** The per-variable guard *)

Lemma appends_lift {A} (r : result A) : appends (lift r).
Proof. exists [], r. intros data. unfold lift. by rewrite app_nil_r. Qed.

Lemma appends_append f : appends (append f).
Proof. by exists [f], (ok tt). Qed.

Lemma appends_bind {A B} (c : M A) (k : A -> M B) :
  appends c -> (forall a, appends (k a)) -> appends (bind_m c k).
Proof.
  intros (fs & [e|a] & Hc) Hk.
  - exists fs, (inl e). intros data. unfold bind_m. by rewrite Hc.
  - destruct (Hk a) as (fs' & r' & Hka).
    exists (fs ++ fs'), r'. intros data. unfold bind_m.
    by rewrite Hc, Hka, app_assoc.
Qed.

Ltac appends_step :=
  first
    [ apply appends_lift
    | apply appends_append
    | apply appends_bind; [|intros ?]
    | match goal with |- appends (if ?b then _ else _) => destruct b end ].

Lemma body_appends r nc var : appends (body r nc var).
Proof.
  destruct r; unfold body, body_1hz, body_25hz; cbv zeta; repeat appends_step.
Qed.

Lemma try_pass_frames r nc var data :
  try_pass (body r nc var) data = data ++ frames r nc var.
Proof.
  destruct (body_appends r nc var) as (fs & res & H).
  unfold frames, try_pass. by rewrite !H.
Qed.

Section loop.
Variable step : string -> list frame -> list frame.
Variable out : string -> list frame.
Hypothesis step_out : forall var data, step var data = data ++ out var.

Lemma fold_step vars : forall data,
  fold_left (fun data var => step var data) vars data
  = data ++ concat (out <$> vars).
Proof.
  induction vars as [|var vars IH]; intros data; cbn.
  - by rewrite app_nil_r.
  - by rewrite IH, step_out, app_assoc.
Qed.
End loop.

Lemma collect_frames r nc vars :
  collect r nc vars = concat (frames r nc <$> vars).
Proof.
  destruct r; unfold collect, collect_1hz, collect_25hz.
  - apply (fold_step (fun var => try_pass (body Reader1Hz nc var))
             (frames Reader1Hz nc) (try_pass_frames Reader1Hz nc)).
  - apply (fold_step (fun var => try_pass (body Reader25Hz nc var))
             (frames Reader25Hz nc) (try_pass_frames Reader25Hz nc)).
Qed.

Lemma collect_app r nc vs1 vs2 :
  collect r nc (vs1 ++ vs2) = collect r nc vs1 ++ collect r nc vs2.
Proof. by rewrite !collect_frames, fmap_app, concat_app. Qed.

Lemma collect_cons r nc var vs :
  collect r nc (var :: vs) = frames r nc var ++ collect r nc vs.
Proof. by rewrite !collect_frames. Qed.

(** What a failed [try] block leaves behind. *)
Lemma body_failure r nc var data e :
  snd (body r nc var data) = inl e ->
  try_pass (body r nc var) data = data
  \/ (var = "Time" /\
      exists vr u out,
        variables nc !! "Time" = Some vr /\ units vr = Some u
        /\ sfm_to_datetime out u = inl e
        /\ try_pass (body r nc var) data = data ++ [("Time", FloatCol out)]).
Proof.
  destruct r; unfold body, body_1hz, body_25hz, try_pass.
  all: destruct (String.eqb var "Time") eqn:Hvar;
    [apply String.eqb_eq in Hvar as ->|].
  all: unfold bind_m, lift, append, getitem, getattr_units, raise, ok.
  all: destruct (variables nc !! _) as [vr|] eqn:Hvr; [|by left].
  - destruct (units vr) as [u|] eqn:Hu; [|by left].
    destruct (frame_of_array "Time" (values vr)) as [|f] eqn:Hf; [by left|].
    destruct (sfm_to_datetime _ u) as [e'|dts] eqn:Hs; [|done].
    intros [= ->]. right. split; [done|]. exists vr, u, (ravel (values vr)).
    repeat split; try done. cbv [fst]. do 2 f_equal.
    destruct (values vr); try discriminate. by injection Hf as <-.
  - destruct (frame_of_array var (values vr)) as [|f] eqn:Hf; [by left|done].
  - destruct (units vr) as [u|] eqn:Hu; [|by left].
    destruct (len (values vr)) as [|n] eqn:Hn; [by left|].
    destruct (column_view (values vr)) as [|col] eqn:Hc; [by left|].
    cbv zeta.
    destruct (sfm_to_datetime _ u) as [e'|dts] eqn:Hs; [|done].
    intros [= ->]. right. split; [done|]. by exists vr, u, (concat (time_grid col)).
  - cbv zeta. destruct (ndims (values vr) =? 2); [done|].
    destruct (ndims (values vr) =? 1); [done|]. by left.
Qed.

(** ** Tables *)

Lemma pd_concat_ok data :
  data <> [] ->
  exists df, pd_concat data = ok df /\ keys df = fst <$> data.
Proof.
  intros Hne. destruct data as [|f data]; [done|].
  eexists. split; [reflexivity|].
  unfold keys. rewrite <- list_fmap_compose. by apply list_fmap_ext.
Qed.

Lemma pd_concat_keys data df :
  pd_concat data = ok df -> keys df = fst <$> data.
Proof.
  intros H. destruct data as [|f data]; [done|].
  destruct (pd_concat_ok (f :: data)) as (df' & H' & Hk); [done|].
  rewrite H in H'. by injection H' as ->.
Qed.

Lemma read_collect r nc vars : read r nc vars = pd_concat (collect r nc vars).
Proof. by destruct r. Qed.

(** The frames of one variable: none, its column, or the two columns of
    [Time]. *)
Lemma frames_shape r nc var :
  frames r nc var = []
  \/ (exists c, frames r nc var = [(var, c)])
  \/ (var = "Time" /\ exists c c', frames r nc var = [("Time", c); ("datetime", c')]).
Proof.
  unfold frames, try_pass.
  destruct r; unfold body, body_1hz, body_25hz.
  all: destruct (String.eqb var "Time") eqn:Hvar;
    [apply String.eqb_eq in Hvar as ->|].
  all: unfold bind_m, lift, append, getitem, getattr_units, raise, ok.
  all: destruct (variables nc !! _) as [vr|] eqn:Hvr; [|by left].
  - destruct (units vr) as [u|]; [|by left].
    destruct (values vr) as [| v | |]; try (by left). cbv [frame_of_array ok].
    destruct (sfm_to_datetime _ u) as [e'|dts]; right; [left|right]; eauto.
  - destruct (values vr) as [| v | |]; try (by left). right; left; eauto.
  - destruct (units vr) as [u|]; [|by left].
    destruct (len (values vr)); [by left|].
    destruct (column_view (values vr)); [by left|]. cbv zeta.
    destruct (sfm_to_datetime _ u) as [e'|dts]; right; [left|right]; eauto.
  - cbv zeta. destruct (ndims (values vr) =? 2); [right; left; eauto|].
    destruct (ndims (values vr) =? 1); [right; left; eauto|by left].
Qed.

Lemma elem_of_concat {A} (x : A) (ls : list (list A)) :
  x ∈ concat ls <-> exists l, x ∈ l /\ l ∈ ls.
Proof.
  rewrite list_elem_of_In, in_concat. split.
  - intros (l & Hl & Hx). exists l. by rewrite !list_elem_of_In.
  - intros (l & Hx & Hl). exists l. by rewrite <- !list_elem_of_In.
Qed.

Lemma frames_names r nc var name :
  name ∈ (fst <$> frames r nc var) ->
  name = var \/ (name = "datetime" /\ var = "Time").
Proof.
  destruct (frames_shape r nc var) as [-> | [[c ->] | [-> (c & c' & ->)]]]; cbn.
  - by intros ?%elem_of_nil.
  - intros ->%list_elem_of_singleton. by left.
  - rewrite !elem_of_cons, elem_of_nil. intros [-> | [-> | []]]; auto.
Qed.

Lemma collect_names r nc vars name :
  name ∈ (fst <$> collect r nc vars) ->
  name ∈ vars \/ (name = "datetime" /\ "Time" ∈ vars).
Proof.
  rewrite collect_frames. intros Hin.
  apply list_elem_of_fmap in Hin as (f & -> & Hf).
  apply elem_of_concat in Hf as (fs & Hf & Hfs).
  apply list_elem_of_fmap in Hfs as (var & -> & Hvar).
  destruct (frames_names r nc var (fst f)) as [-> | [-> ->]]; auto.
  apply list_elem_of_fmap. eauto.
Qed.

Lemma collect_mentions r nc vars var :
  var ∈ vars -> frames r nc var <> [] -> var ∈ (fst <$> collect r nc vars).
Proof.
  intros Hvar Hne. rewrite collect_frames.
  destruct (frames_shape r nc var) as [? | H]; [done|].
  assert (exists f, f ∈ frames r nc var /\ fst f = var) as (f & Hf & <-).
  { destruct H as [[c ->] | [-> (c & c' & ->)]];
      (eexists; split; [by apply elem_of_cons; left | done]). }
  apply list_elem_of_fmap. exists f. split; [done|].
  apply elem_of_concat. exists (frames r nc (fst f)). split; [done|].
  apply list_elem_of_fmap. eauto.
Qed.

(** ** Rate dispatch and the flight record *)

Lemma has_sps25_spec nc : has_sps25 nc = true <-> "sps25" ∈ dimensions nc.
Proof. unfold has_sps25. apply bool_decide_eq_true. Qed.

Lemma init_inv fs path vars rec :
  flight_obj.init fs path vars = ok rec ->
  is_file fs path = true
  /\ netCDF4_Dataset fs path = ok (flight_obj.nc rec)
  /\ read (reader_of (flight_obj.nc rec)) (flight_obj.nc rec) vars = ok (flight_obj.df rec)
  /\ flight_obj.rate rec = (if has_sps25 (flight_obj.nc rec) then "25Hz" else "1Hz")
  /\ flight_obj.read_vars rec = keys (flight_obj.df rec)
  /\ flight_obj.read_vars_attempted rec = vars
  /\ flight_obj.file_path rec = path.
Proof.
  unfold flight_obj.init, bind, reader_of.
  destruct (is_file fs path); [|done].
  destruct (netCDF4_Dataset fs path) as [|ds]; [done|].
  destruct (has_sps25 ds) eqn:Hd.
  - destruct (read_flight_nc_25hz ds vars) as [|table] eqn:Hr; [done|].
    intros [= <-]. cbn. by rewrite Hd.
  - destruct (read_flight_nc_1hz ds vars) as [|table] eqn:Hr; [done|].
    intros [= <-]. cbn. by rewrite Hd.
Qed.

(** C4. The rate dispatch runs the 25 Hz reader exactly when [sps25] is
    among the file's dimension names and the 1 Hz reader otherwise.  For
    an existing netCDF file the constructor does the same and builds the
    record from that reader's table, with the tag [25Hz], respectively
    [1Hz]; so every constructed record carries the tag of the reader
    that made its table. *)
Theorem rate_dispatch nc vars :
  ("sps25" ∈ dimensions nc ->
     read_flight_nc nc vars = read_flight_nc_25hz nc vars)
  /\ ("sps25" ∉ dimensions nc ->
     read_flight_nc nc vars = read_flight_nc_1hz nc vars)
  /\ (forall fs path,
        fs !! path = Some (NcFile nc) ->
        ("sps25" ∈ dimensions nc ->
           flight_obj.init fs path vars
           = bind (read_flight_nc_25hz nc vars) (fun table =>
               ok (flight_obj.mk path vars nc table "25Hz" (keys table))))
        /\ ("sps25" ∉ dimensions nc ->
           flight_obj.init fs path vars
           = bind (read_flight_nc_1hz nc vars) (fun table =>
               ok (flight_obj.mk path vars nc table "1Hz" (keys table)))))
  /\ (forall fs path rec,
        flight_obj.init fs path vars = ok rec ->
        ((("sps25" ∈ dimensions (flight_obj.nc rec))
          /\ flight_obj.rate rec = "25Hz"
          /\ read_flight_nc_25hz (flight_obj.nc rec) vars = ok (flight_obj.df rec))
         \/ (("sps25" ∉ dimensions (flight_obj.nc rec))
             /\ flight_obj.rate rec = "1Hz"
             /\ read_flight_nc_1hz (flight_obj.nc rec) vars = ok (flight_obj.df rec)))).
Proof.
  unfold read_flight_nc. split; [|split; [|split]].
  - intros H%has_sps25_spec. by rewrite H.
  - intros H. destruct (has_sps25 nc) eqn:Hd; [|done].
    by apply has_sps25_spec in Hd.
  - intros fs path Hfile. unfold flight_obj.init, is_file, netCDF4_Dataset.
    rewrite Hfile. cbn [bind ok]. split.
    + intros H%has_sps25_spec. by rewrite H.
    + intros H. destruct (has_sps25 nc) eqn:Hd; [|done].
      by apply has_sps25_spec in Hd.
  - intros fs path rec (_ & _ & Hread & Hrate & _)%init_inv.
    unfold reader_of in Hread.
    destruct (has_sps25 (flight_obj.nc rec)) eqn:Hd.
    + left. by apply has_sps25_spec in Hd.
    + right. split; [|done]. intros H%has_sps25_spec. congruence.
Qed.

(** The tag at the two sample files. *)
Example sample_tags :
  bind (flight_obj.init sample_fs "data/ORCAS/lrt/rf01.nc" ["Time"])
    (fun rec => ok (flight_obj.rate rec)) = ok "25Hz"
  /\ bind (flight_obj.init sample_fs "data/ORCAS/lrt/rf02.nc" ["Time"])
       (fun rec => ok (flight_obj.rate rec)) = ok "1Hz".
Proof. split; vm_compute; reflexivity. Qed.

(** C8. A path that names no existing file makes both [open_flight_nc]
    and the flight-record constructor raise [FileNotFoundError], so no
    record is produced; for an existing file both open it, and the
    constructor goes on to read it. *)
Theorem missing_file_raises fs path vars :
  (is_file fs path = false ->
     open_flight_nc fs path = raise FileNotFoundError
     /\ flight_obj.init fs path vars = raise FileNotFoundError)
  /\ (is_file fs path = true ->
     open_flight_nc fs path = netCDF4_Dataset fs path
     /\ flight_obj.init fs path vars
        = bind (netCDF4_Dataset fs path) (fun ds =>
            bind (read_flight_nc ds vars) (fun table =>
              ok (flight_obj.mk path vars ds table
                    (if has_sps25 ds then "25Hz" else "1Hz") (keys table))))).
Proof.
  unfold open_flight_nc, flight_obj.init. split; intros ->; [done|].
  split; [done|]. cbn. destruct (netCDF4_Dataset fs path) as [|ds]; [done|].
  cbn. unfold read_flight_nc. by destruct (has_sps25 ds).
Qed.

(** C10, as the code has it.  The names stored in a flight record's
    [read_vars] are requested names, or the derived [datetime], which
    appears only when [Time] was requested. *)
Theorem read_vars_requested fs path vars rec name :
  flight_obj.init fs path vars = ok rec ->
  name ∈ flight_obj.read_vars rec ->
  name ∈ vars \/ (name = "datetime" /\ "Time" ∈ vars).
Proof.
  intros (_ & _ & Hread & _ & -> & _)%init_inv.
  rewrite read_collect in Hread. apply pd_concat_keys in Hread as ->.
  apply collect_names.
Qed.

(** C6, as the code has it.  A failure while one requested variable is
    read or transformed stays inside the guard of that variable: the
    variable leaves no column at all, unless the failure is in the time
    reconstruction, which leaves the raw [Time] column and omits only
    [datetime]; the other requested variables are processed as they are
    without it; and when any column was collected the caller gets the
    table. *)
Theorem failure_is_contained r nc var data e :
  snd (body r nc var data) = inl e ->
  (try_pass (body r nc var) data = data
   \/ (var = "Time" /\
       exists vr u out,
         variables nc !! "Time" = Some vr /\ units vr = Some u
         /\ sfm_to_datetime out u = inl e
         /\ try_pass (body r nc var) data = data ++ [("Time", FloatCol out)]))
  /\ (forall vs1 vs2,
        collect r nc (vs1 ++ var :: vs2)
        = collect r nc vs1 ++ frames r nc var ++ collect r nc vs2)
  /\ (forall vars,
        collect r nc vars <> [] ->
        exists df, read r nc vars = ok df /\ keys df = fst <$> collect r nc vars).
Proof.
  intros Hfail. repeat split.
  - by apply body_failure in Hfail.
  - intros vs1 vs2. by rewrite collect_app, collect_cons.
  - intros vars Hne. rewrite read_collect. by apply pd_concat_ok.
Qed.

(** C7, as the code has it.  The caller of a reader gets a table back
    whenever some requested variable yields a column, as a once-per-second
    [Time] with a [units] attribute always does: a units string that
    cannot be parsed is caught by the guard like any other failure and
    costs the [datetime] column only.  The flight-record constructor then
    returns a record for every existing netCDF file. *)
Theorem table_returned r nc vars var :
  var ∈ vars ->
  frames r nc var <> []
  \/ (var = "Time" /\ exists vr t u,
        variables nc !! "Time" = Some vr /\ values vr = Arr1 t /\ units vr = Some u) ->
  (exists df, read r nc vars = ok df /\ var ∈ keys df)
  /\ (forall fs path,
        fs !! path = Some (NcFile nc) -> r = reader_of nc ->
        exists rec, flight_obj.init fs path vars = ok rec
                    /\ var ∈ flight_obj.read_vars rec).
Proof.
  intros Hvar Hsome.
  assert (frames r nc var <> []) as Hne.
  { destruct Hsome as [H | (-> & vr & t & u & Hvr & Ht & Hu)]; [done|].
    unfold frames, try_pass.
    destruct r; unfold body, body_1hz, body_25hz; rewrite String.eqb_refl;
      unfold bind_m, lift, append, getitem, getattr_units; rewrite Hvr;
      cbv beta iota delta [ok]; rewrite Hu, Ht;
      cbv beta iota zeta delta [ok len column_view frame_of_array];
      destruct (sfm_to_datetime _ u); done. }
  assert (exists df, read r nc vars = ok df /\ var ∈ keys df) as (df & Hdf & Hin).
  { destruct (pd_concat_ok (collect r nc vars)) as (df & Hdf & Hk).
    - intros Hnil. pose proof (collect_mentions r nc vars var Hvar Hne) as Hm.
      rewrite Hnil in Hm. by apply elem_of_nil in Hm.
    - exists df. rewrite read_collect. split; [done|].
      rewrite Hk. by apply collect_mentions. }
  split; [eauto|].
  intros fs path Hfile ->. unfold flight_obj.init, is_file, netCDF4_Dataset.
  rewrite Hfile. cbn. unfold reader_of in Hdf.
  destruct (has_sps25 nc); cbn in Hdf; rewrite Hdf; cbn; eauto.
Qed.

(** ** The scanner *)

Lemma for_each_app {A S} (f : S -> A -> result S) l1 l2 s :
  for_each f (l1 ++ l2) s = bind (for_each f l1 s) (for_each f l2).
Proof.
  revert s. induction l1 as [|a l1 IH]; intros s; cbn; [done|].
  destruct (f s a); cbn; [done|]. apply IH.
Qed.

Lemma dict_set_keys_new {V} k (v : V) (d : dict V) :
  k ∉ (fst <$> d) -> fst <$> dict_set k v d = (fst <$> d) ++ [k].
Proof.
  induction d as [|[k' v'] d IH]; cbn; [done|].
  rewrite not_elem_of_cons. intros [Hne Hnin].
  destruct (String.eqb k' k) eqn:Hk.
  - apply String.eqb_eq in Hk. congruence.
  - cbn. by rewrite IH.
Qed.

Lemma find_flight_fnames_dir fs dir entries :
  fs !! dir = Some (Dir entries) ->
  find_flight_fnames fs dir = ok (sorted (List.filter fnmatch_nc entries)).
Proof. intros H. unfold find_flight_fnames, listdir. by rewrite H. Qed.

Lemma sorted_Sorted l : Sorted String.le (sorted l).
Proof. apply Sorted_merge_sort. apply _. Qed.

Lemma sorted_Permutation l : sorted l ≡ₚ l.
Proof. apply merge_sort_Permutation. Qed.

(** The files of a campaign enter its dictionary in the order of the
    loop. *)
Lemma read_one_keys fs dir vars names : forall acc flight_dict,
  for_each (read_one fs dir vars) names acc = ok flight_dict ->
  NoDup names -> (forall n, n ∈ names -> n ∉ (fst <$> acc)) ->
  fst <$> flight_dict = (fst <$> acc) ++ names.
Proof.
  induction names as [|n names IH]; intros acc fd; cbn.
  - intros [= <-] _ _. by rewrite app_nil_r.
  - unfold read_one at 1, bind at 1.
    destruct (open_flight_nc fs _) as [|ds]; [done|]. cbn.
    destruct (read_flight_nc ds vars) as [|df]; [done|]. cbn.
    intros Hrest [Hn Hnd]%NoDup_cons Hfresh.
    apply IH in Hrest; [|done|].
    + rewrite Hrest, dict_set_keys_new, <- app_assoc; [done|].
      apply Hfresh. by left.
    + intros n' Hn'. rewrite dict_set_keys_new by (apply Hfresh; by left).
      rewrite not_elem_of_app, list_elem_of_singleton. split.
      * apply Hfresh. by right.
      * intros ->. done.
Qed.

(** C9, as the code has it.  A campaign whose directory exists and lists
    no name matching [*.nc] gets an empty per-file mapping and the scan
    goes on with the next campaign; the names that match are read in
    sorted order. *)
Theorem empty_campaign fs data_dir campaign vars entries :
  fs !! (data_dir +:+ "/" +:+ campaign +:+ "/lrt") = Some (Dir entries) ->
  (exists names,
      find_flight_fnames fs (data_dir +:+ "/" +:+ campaign +:+ "/lrt") = ok names
      /\ Sorted String.le names
      /\ names ≡ₚ List.filter fnmatch_nc entries
      /\ (forall flight_dict,
            NoDup entries ->
            for_each (read_one fs (data_dir +:+ "/" +:+ campaign +:+ "/lrt") vars)
              names [] = ok flight_dict ->
            fst <$> flight_dict = names))
  /\ ((forall name, name ∈ entries -> fnmatch_nc name = false) ->
      forall before after acc,
        for_each (read_campaign fs data_dir vars) before [] = ok acc ->
        read_campaign fs data_dir vars acc campaign = ok (dict_set campaign [] acc)
        /\ read_all_flights fs data_dir (before ++ campaign :: after) vars
           = for_each (read_campaign fs data_dir vars) after
               (dict_set campaign [] acc)).
Proof.
  intros Hdir. split.
  - exists (sorted (List.filter fnmatch_nc entries)).
    split; [by apply find_flight_fnames_dir|].
    split; [apply sorted_Sorted|]. split; [apply sorted_Permutation|].
    intros fd Hnd Hfd. apply read_one_keys in Hfd; [done| |].
    + rewrite sorted_Permutation. apply NoDup_ListNoDup, List.NoDup_filter.
      by apply NoDup_ListNoDup.
    + intros n _. apply not_elem_of_nil.
  - intros Hnone before after acc Hacc.
    assert (List.filter fnmatch_nc entries = []) as Hfilter.
    { clear Hdir. induction entries as [|x entries IH]; cbn; [done|].
      rewrite (Hnone x) by by left. apply IH. intros n Hn. apply Hnone. by right. }
    assert (read_campaign fs data_dir vars acc campaign
            = ok (dict_set campaign [] acc)) as Hstep.
    { unfold read_campaign. cbv zeta.
      rewrite (find_flight_fnames_dir _ _ _ Hdir), Hfilter. reflexivity. }
    split; [done|].
    unfold read_all_flights. rewrite for_each_app, Hacc. cbn.
    by rewrite Hstep.
Qed.

(** ** Time reconstruction *)

Lemma split_token sep tok rest :
  occurs sep tok = false ->
  split sep (tok +:+ String sep rest) = tok :: split sep rest.
Proof.
  induction tok as [|c tok IH]; intros Hocc.
  - change (EmptyString +:+ String sep rest) with (String sep rest).
    cbn. by rewrite Ascii.eqb_refl.
  - cbn in Hocc. apply orb_false_iff in Hocc as [Hc Htok].
    change (String c tok +:+ String sep rest)
      with (String c (tok +:+ String sep rest)).
    cbn. by rewrite Hc, IH.
Qed.

Lemma digit_not_space c z : digit c = Some z -> Ascii.eqb c " " = false.
Proof.
  destruct c as [[] [] [] [] [] [] [] []]; intros H;
    first [reflexivity | by vm_compute in H].
Qed.

(** Case analysis on a character that the code compares with a literal. *)
Ltac bits c :=
  let b0 := fresh in let b1 := fresh in let b2 := fresh in let b3 := fresh in
  let b4 := fresh in let b5 := fresh in let b6 := fresh in let b7 := fresh in
  destruct c as [b0 b1 b2 b3 b4 b5 b6 b7];
  destruct b0; try discriminate; destruct b1; try discriminate;
  destruct b2; try discriminate; destruct b3; try discriminate;
  destruct b4; try discriminate; destruct b5; try discriminate;
  destruct b6; try discriminate; destruct b7; try discriminate.

Lemma parse_date_shape date ymd :
  parse_date date = Some ymd ->
  occurs " " date = false /\ String.length date = 10.
Proof.
  destruct date as [|c1 [|c2 [|c3 [|c4 [|c5 [|c6 [|c7 [|c8 [|c9 [|c10 [|]]]]]]]]]]];
    try discriminate.
  all: bits c5.
  all: bits c8.
  cbn [parse_date digits].
  destruct (digit c1) eqn:H1; [|discriminate].
  destruct (digit c2) eqn:H2; [|discriminate].
  destruct (digit c3) eqn:H3; [|discriminate].
  destruct (digit c4) eqn:H4; [|discriminate].
  destruct (digit c6) eqn:H6; [|discriminate].
  destruct (digit c7) eqn:H7; [|discriminate].
  destruct (digit c9) eqn:H9; [|discriminate].
  destruct (digit c10) eqn:H10; [|discriminate].
  intros _. split; [|reflexivity].
  cbn [occurs].
  rewrite (digit_not_space _ _ H1), (digit_not_space _ _ H2),
    (digit_not_space _ _ H3), (digit_not_space _ _ H4),
    (digit_not_space _ _ H6), (digit_not_space _ _ H7),
    (digit_not_space _ _ H9), (digit_not_space _ _ H10).
  reflexivity.
Qed.

Lemma substring_prefix a b : substring 0 (String.length a) (a +:+ b) = a.
Proof.
  induction a as [|c a IH].
  - by destruct b.
  - change (String c a +:+ b) with (String c (a +:+ b)). cbn. by rewrite IH.
Qed.

Lemma substring_all a : substring 0 (String.length a) a = a.
Proof. induction a as [|c a IH]; cbn; [done|]. by rewrite IH. Qed.

Lemma substring_suffix a b :
  substring (String.length a) (String.length (a +:+ b) - String.length a) (a +:+ b) = b.
Proof.
  induction a as [|c a IH].
  - change (EmptyString +:+ b) with b. cbn [String.length].
    rewrite Nat.sub_0_r. apply substring_all.
  - change (String c a +:+ b) with (String c (a +:+ b)). cbn. apply IH.
Qed.

Lemma fromisoformat_date date y m d :
  parse_date date = Some (y, m, d) ->
  fromisoformat (date +:+ "T00:00:00+0000") = ok (midnight y m d).
Proof.
  intros Hdate. destruct (parse_date_shape _ _ Hdate) as [_ Hlen].
  unfold fromisoformat.
  rewrite <- Hlen, substring_suffix, substring_prefix, Hdate.
  reflexivity.
Qed.

Lemma units_date_token date rest :
  occurs " " date = false ->
  split " " ("seconds since " +:+ date +:+ " " +:+ rest) !! 2 = Some date.
Proof.
  intros Hdate.
  change ("seconds since " +:+ date +:+ " " +:+ rest)
    with ("seconds" +:+ String " " ("since" +:+ String " " (date +:+ String " " rest))).
  rewrite !split_token by done. reflexivity.
Qed.

Lemma representable_all t0 offsets :
  Forall (representable t0) offsets ->
  exists deltas dts,
    Forall2 (fun s delta => timedelta_seconds s = ok delta) offsets deltas
    /\ Forall2 (fun delta t => Datetime.add t0 delta = ok t) deltas dts.
Proof.
  induction 1 as [|s offsets (delta & t & Hd & Ht) _ (deltas & dts & IH1 & IH2)].
  - exists [], []. split; constructor.
  - exists (delta :: deltas), (t :: dts). split; by constructor.
Qed.

Lemma add_instant t0 delta t :
  Datetime.add t0 delta = ok t ->
  instant t = (instant t0 + delta)%Z
  /\ (0 <= us_of_day t < us_per_day)%Z.
Proof.
  unfold Datetime.add, instant.
  destruct (_ && _); [|done]. intros [= <-]. cbn.
  assert (0 < us_per_day)%Z by done.
  split.
  - rewrite Z.mul_comm. symmetry. apply Z.div_mod. lia.
  - apply Z.mod_pos_bound. lia.
Qed.

(** ** The calendar *)

Lemma days_before_year_succ y :
  (1 <= y)%Z ->
  days_before_year (y + 1) = (days_before_year y + year_days y)%Z.
Proof.
  intros Hy. unfold days_before_year, year_days, is_leap. cbv zeta.
  replace (y + 1 - 1)%Z with y by lia.
  destruct (y mod 4 =? 0)%Z eqn:H4; destruct (y mod 100 =? 0)%Z eqn:H100;
    destruct (y mod 400 =? 0)%Z eqn:H400; cbn [andb orb negb];
    rewrite ?Z.eqb_eq, ?Z.eqb_neq in *;
    Z.to_euclidean_division_equations; lia.
Qed.

Lemma days_of_years_closed (n : nat) :
  days_of_years n = days_before_year (Z.of_nat n + 1).
Proof.
  induction n as [|n IH]; [reflexivity|].
  cbn [days_of_years]. rewrite IH.
  replace (Z.of_nat (S n)) with (Z.of_nat n + 1)%Z by lia.
  symmetry. apply days_before_year_succ. lia.
Qed.

Lemma days_of_months_closed y m :
  (1 <= m <= 12)%Z ->
  days_of_months y (Z.to_nat (m - 1)) = days_before_month y m.
Proof.
  intros Hm.
  assert (m = 1 \/ m = 2 \/ m = 3 \/ m = 4 \/ m = 5 \/ m = 6 \/ m = 7 \/ m = 8
          \/ m = 9 \/ m = 10 \/ m = 11 \/ m = 12)%Z as Hcases by lia.
  repeat (destruct Hcases as [-> | Hcases]); [..|subst m];
    cbv -[is_leap]; destruct (is_leap y); reflexivity.
Qed.

Lemma ymd2ord_counting y m d :
  (1 <= y)%Z -> (1 <= m <= 12)%Z ->
  ymd2ord y m d = ordinal_by_counting y m d.
Proof.
  intros Hy Hm. unfold ymd2ord, ordinal_by_counting.
  rewrite days_of_years_closed, days_of_months_closed by done.
  do 3 f_equal. lia.
Qed.

Lemma digit_digit_char k : (0 <= k <= 9)%Z -> digit (digit_char k) = Some k.
Proof.
  intros Hk.
  assert (k = 0 \/ k = 1 \/ k = 2 \/ k = 3 \/ k = 4 \/ k = 5 \/ k = 6 \/ k = 7
          \/ k = 8 \/ k = 9)%Z as Hcases by lia.
  repeat (destruct Hcases as [-> | Hcases]); [..|subst k]; reflexivity.
Qed.

Lemma digits_render2 n :
  (0 <= n <= 99)%Z -> digits 0 (render2 n) = Some n.
Proof.
  intros Hn. unfold render2. cbn [digits].
  rewrite !digit_digit_char by (Z.to_euclidean_division_equations; lia).
  f_equal. Z.to_euclidean_division_equations; lia.
Qed.

Lemma digits_render4 n :
  (0 <= n <= 9999)%Z -> digits 0 (render4 n) = Some n.
Proof.
  intros Hn. unfold render4, render2. cbn [digits].
  rewrite !digit_digit_char by (Z.to_euclidean_division_equations; lia).
  f_equal. Z.to_euclidean_division_equations; lia.
Qed.

Lemma days_in_month_le y m : (days_in_month y m <= 31)%Z.
Proof.
  unfold days_in_month.
  destruct (m =? 2)%Z; [destruct (is_leap y); lia|].
  destruct (_ || _); lia.
Qed.

Lemma parse_date_render y m d :
  valid_date y m d -> parse_date (render_date y m d) = Some (y, m, d).
Proof.
  intros (Hy & Hm & Hd). pose proof (days_in_month_le y m) as H31.
  pose proof (digits_render4 y) as Hy4. pose proof (digits_render2 m) as Hm2.
  pose proof (digits_render2 d) as Hd2.
  unfold render4, render2 in Hy4, Hm2, Hd2.
  change (render_date y m d)
    with (String (digit_char (y / 1000))
            (String (digit_char (y / 100 mod 10))
               (String (digit_char (y mod 100 / 10))
                  (String (digit_char (y mod 100 mod 10))
                     (String "-"
                        (String (digit_char (m / 10))
                           (String (digit_char (m mod 10))
                              (String "-"
                                 (String (digit_char (d / 10))
                                    (String (digit_char (d mod 10)) EmptyString)))))))))).
  cbv beta iota delta [parse_date].
  rewrite Hy4, Hm2, Hd2 by lia.
  assert ((1 <=? y) && (1 <=? m) && (m <=? 12) && (1 <=? d)
          && (d <=? days_in_month y m) = true)%Z as ->; [|done].
  rewrite !andb_true_iff, !Z.leb_le. lia.
Qed.

(** ** The value of an offset *)

Lemma round_zero :
  round_half_even (PrimFloat.zero * float_of_Z us_per_second)%float = 0%Z.
Proof. reflexivity. Qed.

Lemma whole_seconds_delta s n delta :
  whole_seconds s n -> timedelta_seconds s = ok delta ->
  delta = (n * us_per_second)%Z.
Proof.
  unfold whole_seconds, timedelta_seconds, trunc, frac.
  destruct (Prim2SF s) as [sg| | |sg mant e]; try done.
  - intros ->. rewrite round_zero. destruct (_ <=? _)%Z; [|done].
    by intros [= <-].
  - cbv zeta. destruct (0 <=? e)%Z eqn:He.
    + apply Z.leb_le in He. intros ->. rewrite round_zero.
      destruct (_ <=? _)%Z; [|done]. intros [= <-].
      rewrite Z.shiftl_mul_pow2 by done. destruct sg; lia.
    + apply Z.leb_gt in He. intros Ha.
      assert (0 < 2 ^ (- e))%Z as Hpos by (apply Z.pow_pos_nonneg; lia).
      assert (Z.shiftr (Z.pos mant) (- e)
              = if sg then (- n)%Z else n) as Hq.
      { rewrite Z.shiftr_div_pow2 by lia. destruct sg.
        - replace (Z.pos mant) with (- n * 2 ^ (- e))%Z by lia.
          by apply Z.div_mul, Z.neq_sym, Z.lt_neq.
        - rewrite Ha. by apply Z.div_mul, Z.neq_sym, Z.lt_neq. }
      rewrite Hq.
      assert (Z.pos mant - Z.shiftl (if sg then (- n)%Z else n) (- e) = 0)%Z as ->.
      { rewrite Z.shiftl_mul_pow2 by lia. destruct sg; lia. }
      rewrite round_zero. destruct (_ <=? _)%Z; [|done]. intros [= <-].
      destruct sg; lia.
Qed.

Lemma add_whole_seconds (ord n : Z) t :
  Datetime.add (mk_datetime ord 0) (n * us_per_second)%Z = ok t ->
  t = mk_datetime (ord + n / 86400)%Z (n mod 86400 * us_per_second)%Z.
Proof.
  unfold Datetime.add. cbn [ordinal us_of_day].
  destruct (_ && _); [|done]. intros [= <-].
  unfold us_per_day.
  replace (ord * (86400 * us_per_second) + 0 + n * us_per_second)%Z
    with (n * us_per_second + ord * (86400 * us_per_second))%Z by lia.
  rewrite Z.div_add, Z_mod_plus_full by done.
  rewrite Z.div_mul_cancel_r, Z.mul_mod_distr_r by done.
  f_equal. lia.
Qed.

(** C3. For a units string [seconds since YYYY-MM-DD] followed by any
    time-of-day and offset text, and offsets that [timedelta] and the
    calendar can represent, [sfm_to_datetime] returns as many timestamps
    as there are offsets.  The j-th lies as many microseconds after the
    midnight that begins the date (counted in days from 0001-01-01) as
    [timedelta] makes of the j-th offset; for an offset of [n] whole
    seconds that is the date moved by [n / 86400] days, at
    [n mod 86400] seconds after midnight, so offset zero gives the
    midnight itself.  The text after the date plays no part. *)
Theorem sfm_to_datetime_midnight offsets y m d rest :
  valid_date y m d ->
  Forall (representable (mk_datetime (ordinal_by_counting y m d) 0)) offsets ->
  exists dts,
    sfm_to_datetime offsets
      ("seconds since " +:+ render_date y m d +:+ " " +:+ rest) = ok dts
    /\ length dts = length offsets
    /\ (forall j s, offsets !! j = Some s ->
          exists delta t,
            timedelta_seconds s = ok delta
            /\ dts !! j = Some t
            /\ instant t = (ordinal_by_counting y m d * us_per_day + delta)%Z
            /\ (0 <= us_of_day t < us_per_day)%Z)
    /\ (forall j s n, offsets !! j = Some s -> whole_seconds s n ->
          dts !! j
          = Some (mk_datetime (ordinal_by_counting y m d + n / 86400)
                    (n mod 86400 * us_per_second))).
Proof.
  intros Hvalid Hrep.
  pose proof (parse_date_render _ _ _ Hvalid) as Hdate.
  destruct Hvalid as (Hy & Hm & Hd).
  rewrite <- (ymd2ord_counting y m d) in * by lia.
  destruct (parse_date_shape _ _ Hdate) as [Hocc Hlen].
  destruct (representable_all _ _ Hrep) as (deltas & dts & Hdeltas & Hdts).
  exists dts.
  assert (sfm_to_datetime offsets
            ("seconds since " +:+ render_date y m d +:+ " " +:+ rest)
          = ok dts) as Hrun.
  { unfold sfm_to_datetime.
    apply traverse_Forall2 in Hdeltas as ->. cbn [bind ok].
    unfold index. rewrite units_date_token by done. cbn [bind ok].
    rewrite <- Hlen at 1. rewrite substring_all, (fromisoformat_date _ _ _ _ Hdate).
    cbn [bind ok]. by apply traverse_Forall2. }
  split; [done|]. split; [by apply sfm_to_datetime_length in Hrun|].
  split.
  - intros j s Hs.
    destruct (Forall2_lookup_l _ _ _ _ _ Hdeltas Hs) as (delta & Hdelta & Hsd).
    destruct (Forall2_lookup_l _ _ _ _ _ Hdts Hdelta) as (t & Ht & Hadd).
    exists delta, t. apply add_instant in Hadd as [Hinst Hrange].
    repeat split; try done; try lia.
    rewrite Hinst. unfold instant. cbn. lia.
  - intros j s n Hs Hwhole.
    destruct (Forall2_lookup_l _ _ _ _ _ Hdeltas Hs) as (delta & Hdelta & Hsd).
    destruct (Forall2_lookup_l _ _ _ _ _ Hdts Hdelta) as (t & Ht & Hadd).
    rewrite (whole_seconds_delta _ _ _ Hwhole Hsd) in Hadd.
    apply add_whole_seconds in Hadd as ->. done.
Qed.

(** ** The statements at the sample files *)

(** Two seconds of data with [GGALT = [100, 200]] stored once per second
    and [UIC] stored 25 times per second: 50 rows; [GGALT] climbs from
    100 in steps of 4 over the first 25 rows and is missing over the
    last 25. *)
Example two_seconds_of_25hz :
  exists ggalt uic,
    read_flight_nc sample_25hz ["GGALT"; "LATC"; "UIC"]
    = ok [("GGALT", FloatCol ggalt); ("UIC", FloatCol uic)]
    /\ length ggalt = 50 /\ length uic = 50
    /\ take 3 ggalt = [100%float; 104%float; 108%float]
    /\ ggalt !! 24 = Some 196%float
    /\ drop 25 ggalt = replicate 25 nan
    /\ uic = replicate 25 1%float ++ replicate 25 2%float.
Proof. do 2 eexists. split; [vm_compute; reflexivity|]. by repeat split. Qed.

Lemma interp_25hz_column_witness :
  exists out,
    body_25hz sample_25hz "GGALT" [] = ([] ++ [("GGALT", FloatCol out)], ok tt)
    /\ length out = length [100%float; 200%float] * 25
    /\ (forall i k x y,
          [100%float; 200%float] !! i = Some x ->
          [100%float; 200%float] !! (i + 1) = Some y -> k < 25 ->
          out !! (i * 25 + k) = Some (x + (float_of_nat k / 25) * (y - x))%float)
    /\ (forall k, 0 < length [100%float; 200%float] -> k < 25 ->
          out !! ((length [100%float; 200%float] - 1) * 25 + k) = Some nan).
Proof.
  apply (interp_25hz_column sample_25hz "GGALT"
           (mk_ncvar None (Arr1 [100%float; 200%float])));
    [discriminate | reflexivity | reflexivity].
Defined.

Lemma ravel_25hz_column_witness :
  let rows := [replicate 25 1%float; replicate 25 2%float] in
  body_25hz sample_25hz "UIC" [] = ([] ++ [("UIC", FloatCol (concat rows))], ok tt)
  /\ length (concat rows) = length rows * 25
  /\ (forall i k row, rows !! i = Some row -> k < 25 ->
        concat rows !! (i * 25 + k) = row !! k).
Proof.
  apply (ravel_25hz_column sample_25hz "UIC"
           (mk_ncvar None (Arr2 [replicate 25 1%float; replicate 25 2%float])));
    [discriminate | reflexivity | reflexivity | by repeat constructor].
Defined.

Lemma time_25hz_columns_witness :
  exists out,
    body_25hz sample_25hz "Time" []
    = ([] ++ [("Time", FloatCol out); ("datetime", DateCol (Some <$> sample_datetimes))],
       ok tt)
    /\ length out = length [10%float; 11%float] * 25
    /\ (forall i k x, [10%float; 11%float] !! i = Some x -> k < 25 ->
          out !! (i * 25 + k) = Some (x + float_of_nat k / 25)%float)
    /\ sfm_to_datetime out good_units = ok sample_datetimes
    /\ length sample_datetimes = length out.
Proof.
  apply (time_25hz_columns sample_25hz
           (mk_ncvar (Some good_units) (Arr1 [10%float; 11%float])));
    [reflexivity | reflexivity | reflexivity | vm_compute; reflexivity].
Defined.

Lemma sfm_to_datetime_midnight_witness :
  sfm_to_datetime [0%float; 1.5%float; 86400.25%float; (-1)%float]
    "seconds since 2020-02-29 12:34:56 -0700"
  = ok [mk_datetime 737484 0; mk_datetime 737484 1500000;
        mk_datetime 737485 250000; mk_datetime 737483 86399000000]
  /\ exists dts,
    sfm_to_datetime [0%float; 1.5%float; 86400.25%float; (-1)%float]
      ("seconds since " +:+ render_date 2020 2 29 +:+ " " +:+ "12:34:56 -0700")
    = ok dts
    /\ length dts = length [0%float; 1.5%float; 86400.25%float; (-1)%float]
    /\ (forall j s,
          [0%float; 1.5%float; 86400.25%float; (-1)%float] !! j = Some s ->
          exists delta t,
            timedelta_seconds s = ok delta
            /\ dts !! j = Some t
            /\ instant t = (ordinal_by_counting 2020 2 29 * us_per_day + delta)%Z
            /\ (0 <= us_of_day t < us_per_day)%Z)
    /\ (forall j s n,
          [0%float; 1.5%float; 86400.25%float; (-1)%float] !! j = Some s ->
          whole_seconds s n ->
          dts !! j
          = Some (mk_datetime (ordinal_by_counting 2020 2 29 + n / 86400)
                    (n mod 86400 * us_per_second))).
Proof.
  split; [vm_compute; reflexivity|].
  apply (sfm_to_datetime_midnight
           [0%float; 1.5%float; 86400.25%float; (-1)%float] 2020 2 29
           "12:34:56 -0700").
  - repeat split; by vm_compute.
  - repeat (constructor;
            [do 2 eexists; (split; [vm_compute; reflexivity|]);
             vm_compute; reflexivity|]).
    constructor.
Defined.

Lemma failure_is_contained_witness :
  (try_pass (body Reader25Hz sample_25hz "LATC") [] = []
   \/ ("LATC" = "Time" /\
       exists vr u out,
         variables sample_25hz !! "Time" = Some vr /\ units vr = Some u
         /\ sfm_to_datetime out u = inl IndexError
         /\ try_pass (body Reader25Hz sample_25hz "LATC") []
            = [] ++ [("Time", FloatCol out)]))
  /\ (forall vs1 vs2,
        collect Reader25Hz sample_25hz (vs1 ++ "LATC" :: vs2)
        = collect Reader25Hz sample_25hz vs1
          ++ frames Reader25Hz sample_25hz "LATC"
          ++ collect Reader25Hz sample_25hz vs2)
  /\ (forall vars,
        collect Reader25Hz sample_25hz vars <> [] ->
        exists df, read Reader25Hz sample_25hz vars = ok df
                   /\ keys df = fst <$> collect Reader25Hz sample_25hz vars).
Proof.
  apply (failure_is_contained Reader25Hz sample_25hz "LATC" [] IndexError).
  reflexivity.
Defined.

Lemma table_returned_witness :
  (exists df, read Reader1Hz sample_bad_units ["Time"] = ok df /\ "Time" ∈ keys df)
  /\ (forall fs path,
        fs !! path = Some (NcFile sample_bad_units) ->
        Reader1Hz = reader_of sample_bad_units ->
        exists rec, flight_obj.init fs path ["Time"] = ok rec
                    /\ "Time" ∈ flight_obj.read_vars rec).
Proof.
  apply (table_returned Reader1Hz sample_bad_units ["Time"] "Time").
  - apply list_elem_of_singleton. reflexivity.
  - right. split; [reflexivity|].
    exists (mk_ncvar (Some "bogus") (Arr1 [10%float; 11%float])),
      [10%float; 11%float], "bogus".
    repeat split; reflexivity.
Defined.

Lemma read_vars_requested_witness :
  "datetime" ∈ ["Time"] \/ ("datetime" = "datetime" /\ "Time" ∈ ["Time"]).
Proof.
  apply (read_vars_requested sample_fs "data/ORCAS/lrt/rf01.nc" ["Time"]
           sample_record "datetime").
  - vm_compute. reflexivity.
  - apply elem_of_cons. right. apply list_elem_of_singleton. reflexivity.
Defined.

Lemma empty_campaign_witness :
  (exists names,
      find_flight_fnames sample_fs ("data" +:+ "/" +:+ "CSET" +:+ "/lrt") = ok names
      /\ Sorted String.le names
      /\ names ≡ₚ List.filter fnmatch_nc ["notes.txt"]
      /\ (forall flight_dict,
            NoDup ["notes.txt"] ->
            for_each (read_one sample_fs ("data" +:+ "/" +:+ "CSET" +:+ "/lrt") vars_to_read)
              names [] = ok flight_dict ->
            fst <$> flight_dict = names))
  /\ ((forall name, name ∈ ["notes.txt"] -> fnmatch_nc name = false) ->
      forall before after acc,
        for_each (read_campaign sample_fs "data" vars_to_read) before [] = ok acc ->
        read_campaign sample_fs "data" vars_to_read acc "CSET"
        = ok (dict_set "CSET" [] acc)
        /\ read_all_flights sample_fs "data" (before ++ "CSET" :: after) vars_to_read
           = for_each (read_campaign sample_fs "data" vars_to_read) after
               (dict_set "CSET" [] acc)).
Proof.
  apply (empty_campaign sample_fs "data" "CSET" vars_to_read ["notes.txt"]).
  reflexivity.
Defined.

(** ** Where the code departs from its description *)

(** C6. Time reconstruction fails on the unparsable units of this file,
    and yet the raw [Time] column is in the table. *)
Lemma failure_keeps_time :
  snd (body_1hz sample_bad_units "Time" []) = inl IndexError
  /\ read_flight_nc_1hz sample_bad_units ["Time"]
     = ok [("Time", FloatCol [10%float; 11%float])].
Proof. split; reflexivity. Qed.

(** C7. Units that cannot be parsed are not fatal: the reader returns a
    table.  And a request that yields no column raises [ValueError],
    though the file exists and its units are well formed. *)
Lemma unparsable_units_not_fatal :
  sfm_to_datetime [10%float; 11%float] "bogus" = inl IndexError
  /\ read_flight_nc sample_bad_units ["Time"]
     = ok [("Time", FloatCol [10%float; 11%float])]
  /\ is_file sample_fs "data/ORCAS/lrt/rf01.nc" = true
  /\ flight_obj.init sample_fs "data/ORCAS/lrt/rf01.nc" ["LATC"] = inl ValueError.
Proof. repeat split; vm_compute; reflexivity. Qed.

(** C9. A campaign whose directory is missing ends the scan with
    [FileNotFoundError]. *)
Lemma missing_campaign_raises :
  sample_fs !! "data/SOCRATES/lrt" = None
  /\ read_all_flights sample_fs "data" ["CSET"; "SOCRATES"] vars_to_read
     = inl FileNotFoundError.
Proof. split; vm_compute; reflexivity. Qed.

(** C10. A record built for the request [Time] alone lists [datetime]
    among the names it read. *)
Lemma datetime_not_requested :
  flight_obj.init sample_fs "data/ORCAS/lrt/rf01.nc" ["Time"] = ok sample_record
  /\ flight_obj.read_vars sample_record = ["Time"; "datetime"]
  /\ "datetime" ∉ ["Time"].
Proof.
  split; [vm_compute; reflexivity|]. split; [reflexivity|].
  intros H. apply list_elem_of_singleton in H. discriminate H.
Qed.

(** * Further properties *)

(** ** Every collected column *)

Lemma frames_25hz_length N nc var f :
  (forall name vr, variables nc !! name = Some vr -> seconds_shaped N (values vr)) ->
  f ∈ frames Reader25Hz nc var -> col_length (snd f) = N * 25.
Proof.
  intros Hshape. unfold frames, try_pass, body, body_25hz.
  destruct (String.eqb var "Time") eqn:Hvar;
    [apply String.eqb_eq in Hvar as ->|].
  all: unfold bind_m, lift, append, getitem, getattr_units, raise, ok.
  all: destruct (variables nc !! _) as [vr|] eqn:Hvr; [|by intros ?%elem_of_nil].
  all: specialize (Hshape _ _ Hvr).
  - destruct (units vr) as [u|]; [|by intros ?%elem_of_nil].
    destruct Hshape as [(t & -> & <-) | (rows & -> & <- & Hrows)].
    + cbv beta iota zeta delta [len column_view ok].
      assert (length (concat (time_grid t)) = length t * 25) as Hlen.
      { rewrite (length_concat_uniform 25) by apply time_grid_uniform.
        by rewrite time_grid_rows, length_fmap. }
      destruct (sfm_to_datetime _ u) as [e|dts] eqn:Hs;
        cbv beta iota delta [fst app frame_of_dates].
      * by intros ->%list_elem_of_singleton.
      * rewrite !elem_of_cons, elem_of_nil.
        intros [-> | [-> | []]]; cbv [snd col_length]; [done|].
        rewrite length_fmap. apply sfm_to_datetime_length in Hs. congruence.
    + cbv beta iota zeta delta [len ok].
      destruct (column_view (Arr2 rows)) as [e|col] eqn:Hc;
        [by intros ?%elem_of_nil|].
      exfalso. destruct rows as [|[|x [|]] [|]]; try discriminate.
      by apply Forall_cons in Hrows as [? _].
  - cbv zeta. destruct Hshape as [(v & -> & <-) | (rows & -> & <- & Hrows)];
      cbv beta iota delta [ndims ravel Nat.eqb fst app].
    + intros ->%list_elem_of_singleton. cbv [snd col_length].
      rewrite (length_concat_uniform 25) by apply interp_grid_uniform.
      by rewrite interp_grid_length.
    + intros ->%list_elem_of_singleton. cbv [snd col_length].
      by apply length_concat_uniform.
Qed.

Lemma max_list_constant n (l : list nat) :
  l <> [] -> Forall (fun m => m = n) l -> max_list l = n.
Proof.
  intros Hne Hall. pose proof (max_list_elem_of l Hne) as Hin.
  by eapply Forall_forall in Hall.
Qed.

Lemma pad_full n c : col_length c = n -> pad n c = c.
Proof.
  intros <-. destruct c; cbn; by rewrite Nat.sub_diag, app_nil_r.
Qed.

Lemma pd_concat_uniform n data :
  data <> [] -> Forall (fun f => col_length (snd f) = n) data ->
  pd_concat data = ok data.
Proof.
  intros Hne Hall.
  assert ((fun f => (fst f, pad (nrows data) (snd f))) <$> data = data) as Hpad.
  { assert (nrows data = n) as ->.
    { unfold nrows. apply max_list_constant; [by destruct data|].
      by apply Forall_fmap. }
    rewrite <- (list_fmap_id data) at 2. apply Forall_fmap_ext_1.
    eapply Forall_impl; [exact Hall|]. intros [name c] Hc. cbn in *.
    by rewrite pad_full. }
  destruct data; [done|]. unfold pd_concat. by rewrite Hpad.
Qed.

(** X1. In a 25 Hz file all of whose variables cover the same [N]
    seconds, every column of the table that the 25 Hz reader returns has
    [N*25] rows, so the table is the collected columns as they are,
    nothing padded. *)
Theorem uniform_length_25hz N nc vars df :
  (forall name vr, variables nc !! name = Some vr -> seconds_shaped N (values vr)) ->
  read_flight_nc_25hz nc vars = ok df ->
  df = collect_25hz nc vars
  /\ (forall name c, (name, c) ∈ df -> col_length c = N * 25).
Proof.
  intros Hshape Hread.
  assert (Forall (fun f => col_length (snd f) = N * 25) (collect_25hz nc vars)) as Hall.
  { apply Forall_forall. intros f Hf.
    change (collect_25hz nc vars) with (collect Reader25Hz nc vars) in Hf.
    rewrite collect_frames in Hf.
    apply elem_of_concat in Hf as (fs & Hf & Hfs).
    apply list_elem_of_fmap in Hfs as (var & -> & _).
    by eapply frames_25hz_length. }
  unfold read_flight_nc_25hz in Hread.
  destruct (collect_25hz nc vars) as [|f data] eqn:Hdata; [discriminate Hread|].
  rewrite (pd_concat_uniform (N * 25)) in Hread by done.
  injection Hread as <-. split; [done|].
  intros name c Hin. rewrite Forall_forall in Hall. apply (Hall _ Hin).
Qed.

(** X2. Every column that the 1 Hz reader collects is, value for value,
    the one-dimensional variable of that name in the file, or it is the
    [datetime] column: the time reconstruction of the file's [Time]
    under its [units]. *)
Theorem columns_1hz_from_file nc vars name c :
  (name, c) ∈ collect_1hz nc vars ->
  (exists vr v, name ∈ vars /\ variables nc !! name = Some vr
                /\ values vr = Arr1 v /\ c = FloatCol v)
  \/ (exists vr v u dts,
        name = "datetime" /\ "Time" ∈ vars
        /\ variables nc !! "Time" = Some vr /\ values vr = Arr1 v
        /\ units vr = Some u /\ sfm_to_datetime v u = ok dts
        /\ c = DateCol (Some <$> dts)).
Proof.
  change (collect_1hz nc vars) with (collect Reader1Hz nc vars).
  rewrite collect_frames. intros Hin.
  apply elem_of_concat in Hin as (fs & Hin & Hfs).
  apply list_elem_of_fmap in Hfs as (var & -> & Hvar).
  revert Hin. unfold frames, try_pass, body, body_1hz.
  destruct (String.eqb var "Time") eqn:HT;
    [apply String.eqb_eq in HT as ->|].
  all: unfold bind_m, lift, append, getitem, getattr_units, raise, ok.
  all: destruct (variables nc !! _) as [vr|] eqn:Hvr; [|by intros ?%elem_of_nil].
  - destruct (units vr) as [u|] eqn:Hu; [|by intros ?%elem_of_nil].
    destruct (values vr) as [| v | |] eqn:Hv; try (by intros ?%elem_of_nil).
    cbv beta iota delta [frame_of_array ok ravel].
    destruct (sfm_to_datetime v u) as [e|dts] eqn:Hs;
      cbv beta iota delta [fst app frame_of_dates].
    + intros [= -> ->]%list_elem_of_singleton. left. eauto 10.
    + rewrite !elem_of_cons, elem_of_nil. intros [[= -> ->] | [[= -> ->] | []]].
      * left. eauto 10.
      * right. exists vr, v, u, dts. eauto 10.
  - destruct (values vr) as [| v | |] eqn:Hv; try (by intros ?%elem_of_nil).
    cbv beta iota delta [frame_of_array ok fst app].
    intros [= -> ->]%list_elem_of_singleton. left. eauto 10.
Qed.

(** X3. The columns of a returned table stand in the order of the
    request: its names are what is left of the requested names, with
    [datetime] after [Time], once the variables that failed are struck
    out. *)
Theorem columns_in_request_order r nc vars df :
  read r nc vars = ok df -> keys df `sublist_of` with_datetime vars.
Proof.
  rewrite read_collect. intros ->%pd_concat_keys.
  rewrite collect_frames. unfold with_datetime.
  induction vars as [|var vars IH]; cbn; [constructor|].
  rewrite fmap_app. apply sublist_app; [|exact IH].
  destruct (frames_shape r nc var) as [-> | [[c ->] | [-> (c & c' & ->)]]]; cbn.
  - apply sublist_nil_l.
  - destruct (String.eqb var "Time") eqn:HT.
    + apply String.eqb_eq in HT as ->. apply sublist_skip, sublist_nil_l.
    + reflexivity.
  - reflexivity.
Qed.

(** X4. The one exception that a reader lets out is the [ValueError] of
    the concatenation, and it does so exactly when none of the requested
    variables yields a column; the empty request is such a case. *)
Theorem reader_raises_iff r nc vars e :
  read r nc vars = inl e
  <-> e = ValueError /\ forall var, var ∈ vars -> frames r nc var = [].
Proof.
  rewrite read_collect, collect_frames. split.
  - destruct (concat (frames r nc <$> vars)) as [|f data] eqn:Hc; [|done].
    intros [= <-]. split; [done|]. intros var Hvar.
    destruct (frames r nc var) as [|f fs] eqn:Hf; [done|].
    assert (f ∈ concat (frames r nc <$> vars)) as Hin.
    { apply elem_of_concat. exists (f :: fs). split; [by left|].
      apply list_elem_of_fmap. eauto. }
    rewrite Hc in Hin. by apply elem_of_nil in Hin.
  - intros [-> Hall].
    assert (concat (frames r nc <$> vars) = []) as ->; [|done].
    induction vars as [|var vars IH]; [done|]. cbn.
    rewrite (Hall var) by by left. apply IH. intros v Hv. apply Hall. by right.
Qed.

(** X5. When a requested variable leaves no column.  In the 1 Hz
    reader: exactly when the file has no one-dimensional variable of
    that name or, for [Time], no [units] attribute on it.  In the 25 Hz
    reader, for a name other than [Time]: exactly when the file has no
    variable of that name of rank 1 or 2. *)
Theorem dropped_iff nc var :
  (frames Reader1Hz nc var = []
   <-> ~ exists vr v, variables nc !! var = Some vr /\ values vr = Arr1 v
                      /\ (var = "Time" -> is_Some (units vr)))
  /\ (var <> "Time" ->
      (frames Reader25Hz nc var = []
       <-> ~ exists vr, variables nc !! var = Some vr
                        /\ (ndims (values vr) = 1 \/ ndims (values vr) = 2))).
Proof.
  split.
  - unfold frames, try_pass, body, body_1hz.
    destruct (String.eqb var "Time") eqn:HT.
    all: unfold bind_m, lift, append, getitem, getattr_units, raise, ok.
    all: destruct (variables nc !! var) as [vr|] eqn:Hvr;
      [|split; [intros _ (? & ? & ? & _); done|done]].
    + apply String.eqb_eq in HT as ->.
      destruct (units vr) as [u|] eqn:Hu.
      * destruct (values vr) as [| v | |] eqn:Hv;
          try (split; [intros _ (? & ? & [= <-] & ? & _); congruence|done]).
        cbv beta iota delta [frame_of_array ok ravel].
        destruct (sfm_to_datetime v u);
          (split; [done|]; intros []; exists vr, v; rewrite Hu; eauto).
      * split; [|done]. intros _ (vr' & v & [= <-] & _ & Hsome).
        rewrite Hu in Hsome. by destruct (Hsome eq_refl).
    + apply String.eqb_neq in HT.
      destruct (values vr) as [| v | |] eqn:Hv;
        try (split; [intros _ (? & ? & [= <-] & ? & _); congruence|done]).
      split; [done|]. intros []. exists vr, v. repeat split; done.
  - intros HT. unfold frames, try_pass, body, body_25hz.
    apply String.eqb_neq in HT as ->.
    unfold bind_m, lift, append, getitem, raise, ok.
    destruct (variables nc !! var) as [vr|] eqn:Hvr;
      [|split; [intros _ (? & ? & _); done|done]].
    cbv zeta.
    destruct (ndims (values vr) =? 2) eqn:H2.
    { apply Nat.eqb_eq in H2. split; [done|]. intros []. eauto. }
    destruct (ndims (values vr) =? 1) eqn:H1.
    { apply Nat.eqb_eq in H1. split; [done|]. intros []. eauto. }
    apply Nat.eqb_neq in H1, H2.
    split; [|done]. intros _ (vr' & [= <-] & [? | ?]); done.
Qed.

(** X6. A variable other than [Time] that the file stores once per
    second for a single second, or for none, comes out of the 25 Hz
    reader with nothing but NaN: there is no following second to
    interpolate toward. *)
Theorem short_variable_all_nan nc var vr v data :
  var <> "Time" -> variables nc !! var = Some vr -> values vr = Arr1 v ->
  length v <= 1 ->
  body_25hz nc var data
  = (data ++ [(var, FloatCol (replicate (length v * 25) nan))], ok tt).
Proof.
  intros Hvar Hvr Hv Hlen.
  unfold body_25hz. apply String.eqb_neq in Hvar as ->.
  unfold bind_m, lift, getitem. rewrite Hvr. cbv beta iota delta [ok].
  rewrite Hv. cbv beta iota zeta delta [ndims Nat.eqb ravel append].
  do 4 f_equal. rewrite interp_grid_rows.
  destruct v as [|x [|y v]]; [reflexivity|reflexivity|cbn in Hlen; lia].
Qed.

(** ** More on time reconstruction *)

Lemma sfm_to_datetime_steps sfm tunits :
  sfm_to_datetime sfm tunits
  = bind (traverse timedelta_seconds sfm) (fun deltas =>
      bind (reference_instant tunits) (fun t0 =>
        traverse (fun delta => Datetime.add t0 delta) deltas)).
Proof.
  unfold sfm_to_datetime, reference_instant, bind.
  destruct (traverse timedelta_seconds sfm); [done|].
  by destruct (index _ 2).
Qed.

Lemma traverse_app {A B} (f : A -> result B) l1 l2 :
  traverse f (l1 ++ l2)
  = bind (traverse f l1) (fun b1 =>
      bind (traverse f l2) (fun b2 => ok (b1 ++ b2))).
Proof.
  induction l1 as [|a l1 IH]; cbn.
  - unfold bind. by destruct (traverse f l2).
  - unfold bind in *. destruct (f a); [done|]. rewrite IH.
    destruct (traverse f l1); [done|]. by destruct (traverse f l2).
Qed.

Lemma traverse_convertible l :
  Forall convertible l -> exists deltas, traverse timedelta_seconds l = ok deltas.
Proof.
  induction 1 as [|s l [delta Hs] _ [deltas IH]]; [by exists []|].
  exists (delta :: deltas). cbn. by rewrite Hs, IH.
Qed.

Lemma split_length sep s : length (split sep s) = S (count_char sep s).
Proof.
  induction s as [|c s IH]; cbn; [done|].
  destruct (Ascii.eqb c sep); cbn; [by rewrite IH|].
  destruct (split sep s); cbn in *; lia.
Qed.

Lemma split_last sep tok : occurs sep tok = false -> split sep tok = [tok].
Proof.
  induction tok as [|c tok IH]; cbn; [done|].
  intros [Hc Htok]%orb_false_iff. by rewrite Hc, IH.
Qed.

(** X7. Of a units string [sfm_to_datetime] reads the third word only:
    whatever the first two words are (they need not say seconds) and
    whatever follows the date, the result is that of the bare
    [seconds since <date>]. *)
Theorem units_third_word_only sfm w0 w1 date rest :
  occurs " " w0 = false -> occurs " " w1 = false -> occurs " " date = false ->
  sfm_to_datetime sfm (w0 +:+ " " +:+ w1 +:+ " " +:+ date +:+ " " +:+ rest)
  = sfm_to_datetime sfm ("seconds since " +:+ date).
Proof.
  intros H0 H1 Hd. rewrite !sfm_to_datetime_steps.
  assert (reference_instant (w0 +:+ " " +:+ w1 +:+ " " +:+ date +:+ " " +:+ rest)
          = reference_instant ("seconds since " +:+ date)) as ->; [|done].
  unfold reference_instant.
  change (w0 +:+ " " +:+ w1 +:+ " " +:+ date +:+ " " +:+ rest)
    with (w0 +:+ String " " (w1 +:+ String " " (date +:+ String " " rest))).
  change ("seconds since " +:+ date)
    with ("seconds" +:+ String " " ("since" +:+ String " " date)).
  rewrite (split_token " " w0), (split_token " " w1), (split_token " " date) by done.
  rewrite (split_token " " "seconds"), (split_token " " "since") by reflexivity.
  rewrite (split_last " " date) by done. reflexivity.
Qed.

(** X8. The offsets are converted before the units string is looked at:
    a NaN among them, after offsets that convert, raises [ValueError]
    whatever the units string is. *)
Theorem nan_offset_raises pre post tunits :
  Forall convertible pre ->
  sfm_to_datetime (pre ++ nan :: post) tunits = inl ValueError.
Proof.
  intros [deltas Hpre]%traverse_convertible.
  rewrite sfm_to_datetime_steps, traverse_app, Hpre. reflexivity.
Qed.

(** X9. A units string with fewer than two spaces has no third word:
    when the offsets convert, [sfm_to_datetime] raises [IndexError]. *)
Theorem short_units_raise sfm tunits :
  Forall convertible sfm -> count_char " " tunits < 2 ->
  sfm_to_datetime sfm tunits = inl IndexError.
Proof.
  intros [deltas Hd]%traverse_convertible Hcount.
  rewrite sfm_to_datetime_steps, Hd. cbn [bind ok].
  unfold reference_instant, index.
  rewrite (proj2 (lookup_ge_None _ _)); [done|].
  rewrite split_length. lia.
Qed.

(** X10. Time reconstruction works offset by offset: the timestamps of
    two runs of offsets put end to end are the timestamps of the one
    followed by those of the other, and the whole succeeds exactly when
    both parts do. *)
Theorem sfm_to_datetime_app l1 l2 tunits dts :
  sfm_to_datetime (l1 ++ l2) tunits = ok dts
  <-> exists d1 d2,
        sfm_to_datetime l1 tunits = ok d1
        /\ sfm_to_datetime l2 tunits = ok d2
        /\ dts = d1 ++ d2.
Proof.
  rewrite !sfm_to_datetime_steps, traverse_app. unfold bind.
  destruct (traverse timedelta_seconds l1) as [|b1];
    [split; [done|by intros (? & ? & ? & _)]|].
  destruct (traverse timedelta_seconds l2) as [|b2];
    [split; [done|by intros (? & ? & _ & ? & _)]|].
  cbv beta iota delta [ok].
  destruct (reference_instant tunits) as [|t0];
    [split; [done|by intros (? & ? & ? & _)]|].
  rewrite traverse_app. unfold bind.
  destruct (traverse _ b1) as [|d1];
    [split; [done|by intros (? & ? & ? & _)]|].
  destruct (traverse _ b2) as [|d2];
    [split; [done|by intros (? & ? & _ & ? & _)]|].
  split.
  - intros [= <-]. by exists d1, d2.
  - intros (? & ? & [= <-] & [= <-] & ->). done.
Qed.

(** ** More on the scanner *)

Lemma string_length_app a b :
  String.length (a +:+ b) = String.length a + String.length b.
Proof.
  induction a as [|c a IH]; [done|].
  change (String c a +:+ b) with (String c (a +:+ b)). cbn. by rewrite IH.
Qed.

Lemma substring_split k s :
  k <= String.length s ->
  s = substring 0 k s +:+ substring k (String.length s - k) s.
Proof.
  revert k. induction s as [|c s IH]; intros [|k] Hk; cbn in *; try lia.
  - done.
  - change (EmptyString +:+ String c (substring 0 (String.length s) s))
      with (String c (substring 0 (String.length s) s)).
    by rewrite substring_all.
  - change (String c (substring 0 k s) +:+ substring k (String.length s - k) s)
      with (String c (substring 0 k s +:+ substring k (String.length s - k) s)).
    rewrite <- IH by lia. done.
Qed.

Lemma fnmatch_nc_suffix name :
  fnmatch_nc name = true <-> exists stem, name = stem +:+ ".nc".
Proof.
  unfold fnmatch_nc. rewrite andb_true_iff, Nat.leb_le, String.eqb_eq. split.
  - intros [Hlen Hsuf]. exists (substring 0 (String.length name - 3) name).
    pose proof (substring_split (String.length name - 3) name) as Hsplit.
    replace (String.length name - (String.length name - 3)) with 3 in Hsplit by lia.
    rewrite Hsuf in Hsplit. apply Hsplit. lia.
  - intros [stem ->]. rewrite string_length_app. cbn [String.length]. split; [lia|].
    replace (String.length stem + 3 - 3) with (String.length stem) by lia.
    pose proof (substring_suffix stem ".nc") as Hsuf.
    rewrite string_length_app in Hsuf. cbn [String.length] in Hsuf.
    by replace (String.length stem + 3 - String.length stem) with 3 in Hsuf by lia.
Qed.

(** X11. Of an existing directory [find_flight_fnames] returns, in
    ascending order and whatever the order of the listing, exactly the
    listed names that end in [.nc]. *)
Theorem find_flight_fnames_spec fs dir entries :
  fs !! dir = Some (Dir entries) ->
  exists names,
    find_flight_fnames fs dir = ok names
    /\ Sorted String.le names
    /\ (forall name, name ∈ names
                     <-> name ∈ entries /\ exists stem, name = stem +:+ ".nc")
    /\ (forall fs' dir' entries',
          fs' !! dir' = Some (Dir entries') -> entries' ≡ₚ entries ->
          find_flight_fnames fs' dir' = ok names).
Proof.
  intros Hdir. exists (sorted (List.filter fnmatch_nc entries)).
  split; [by apply find_flight_fnames_dir|]. split; [apply sorted_Sorted|]. split.
  - intros name. rewrite sorted_Permutation, list_elem_of_In, filter_In.
    by rewrite <- list_elem_of_In, fnmatch_nc_suffix.
  - intros fs' dir' entries' Hdir' Hperm.
    rewrite (find_flight_fnames_dir _ _ _ Hdir'). f_equal.
    apply (Sorted_unique String.le); [apply sorted_Sorted..|].
    rewrite !sorted_Permutation. clear -Hperm.
    induction Hperm as [|x l l' _ IH|x y l|l l' l'' _ IH1 _ IH2]; cbn.
    + done.
    + destruct (fnmatch_nc x); by rewrite IH.
    + destruct (fnmatch_nc x), (fnmatch_nc y); try done. apply perm_swap.
    + by rewrite IH1.
Qed.

(** X12. A campaign whose directory does not exist ends the scan with
    [FileNotFoundError], whatever was read before it and whatever
    campaigns follow. *)
Theorem missing_directory_aborts fs data_dir vars before campaign after acc :
  for_each (read_campaign fs data_dir vars) before [] = ok acc ->
  fs !! (data_dir +:+ "/" +:+ campaign +:+ "/lrt") = None ->
  read_all_flights fs data_dir (before ++ campaign :: after) vars
  = inl FileNotFoundError.
Proof.
  intros Hacc Hdir. unfold read_all_flights.
  rewrite for_each_app, Hacc. cbn.
  unfold read_campaign, find_flight_fnames, listdir. cbv zeta.
  by rewrite Hdir.
Qed.

Lemma dict_set_keys {V} k (v : V) (d : dict V) :
  fst <$> dict_set k v d
  = if bool_decide (k ∈ (fst <$> d)) then fst <$> d else (fst <$> d) ++ [k].
Proof.
  case_bool_decide as Hin; [|by apply dict_set_keys_new].
  induction d as [|[k' v'] d IH]; cbn in *; [by apply elem_of_nil in Hin|].
  destruct (String.eqb k' k) eqn:Hk; [done|].
  apply String.eqb_neq in Hk. cbn. rewrite IH; [done|].
  apply elem_of_cons in Hin as [->|]; done.
Qed.

Lemma read_campaign_keys fs data_dir vars acc campaign acc' :
  read_campaign fs data_dir vars acc campaign = ok acc' ->
  exists flight_dict, acc' = dict_set campaign flight_dict acc.
Proof.
  unfold read_campaign, bind. cbv zeta.
  destruct (find_flight_fnames _ _); [done|].
  destruct (for_each _ _ _) as [|fd]; [done|].
  intros [= <-]. eauto.
Qed.

Lemma scan_keys fs data_dir vars campaigns : forall acc result,
  for_each (read_campaign fs data_dir vars) campaigns acc = ok result ->
  NoDup (fst <$> acc) ->
  NoDup (fst <$> result)
  /\ (forall c, c ∈ (fst <$> result) <-> c ∈ (fst <$> acc) \/ c ∈ campaigns).
Proof.
  induction campaigns as [|c0 campaigns IH]; intros acc result; cbn.
  - intros [= <-] Hnd. split; [done|]. intros c. rewrite elem_of_nil. tauto.
  - unfold bind at 1.
    destruct (read_campaign _ _ _ acc c0) as [|acc'] eqn:Hstep; [done|].
    intros Hrest Hnd.
    destruct (read_campaign_keys _ _ _ _ _ _ Hstep) as [fd ->].
    apply IH in Hrest as [Hnd' Hiff].
    + split; [done|]. intros c. rewrite Hiff, dict_set_keys, elem_of_cons.
      case_bool_decide as Hin.
      * split; [tauto|]. intros [? | [-> | ?]]; auto.
      * rewrite elem_of_app, list_elem_of_singleton. tauto.
    + rewrite dict_set_keys. case_bool_decide as Hin; [done|].
      apply NoDup_app. split; [done|]. split; [|apply NoDup_singleton].
      intros x Hx ->%list_elem_of_singleton. done.
Qed.

(** X13. The result of a scan that succeeds has one entry for every
    campaign of the list and no other, each campaign once, however often
    the list names it. *)
Theorem scan_has_every_campaign fs data_dir campaigns vars result :
  read_all_flights fs data_dir campaigns vars = ok result ->
  NoDup (fst <$> result)
  /\ (forall c, c ∈ (fst <$> result) <-> c ∈ campaigns).
Proof.
  intros Hscan. apply scan_keys in Hscan as [Hnd Hiff]; [|constructor].
  split; [done|]. intros c. rewrite Hiff. cbn. rewrite elem_of_nil. tauto.
Qed.


Lemma dict_set_new {V} k (v : V) (d : dict V) :
  k ∉ (fst <$> d) -> dict_set k v d = d ++ [(k, v)].
Proof.
  induction d as [|[k' v'] d IH]; cbn; [done|].
  rewrite not_elem_of_cons. intros [Hne Hnin].
  destruct (String.eqb k' k) eqn:Hk.
  - apply String.eqb_eq in Hk. congruence.
  - by rewrite IH.
Qed.

Lemma open_flight_nc_ok fs path nc :
  open_flight_nc fs path = ok nc -> fs !! path = Some (NcFile nc).
Proof.
  unfold open_flight_nc, is_file, netCDF4_Dataset.
  destruct (fs !! path) as [[| |]|]; cbn; try done. by intros [= ->].
Qed.

Lemma read_one_tables fs dir vars names : forall acc flight_dict,
  for_each (read_one fs dir vars) names acc = ok flight_dict ->
  NoDup names -> (forall n, n ∈ names -> n ∉ (fst <$> acc)) ->
  exists tables,
    flight_dict = acc ++ tables
    /\ fst <$> tables = names
    /\ (forall name df, (name, df) ∈ tables ->
          exists nc, fs !! (dir +:+ "/" +:+ name) = Some (NcFile nc)
                     /\ read_flight_nc nc vars = ok df).
Proof.
  induction names as [|n names IH]; intros acc fd; cbn.
  - intros [= <-] _ _. exists []. rewrite app_nil_r. split; [done|].
    split; [done|]. by intros ? ? ?%elem_of_nil.
  - unfold read_one at 1, bind at 1.
    destruct (open_flight_nc fs _) as [|ds] eqn:Hopen; [done|]. cbn.
    destruct (read_flight_nc ds vars) as [|df0] eqn:Hread; [done|]. cbn.
    intros Hrest [Hn Hnd]%NoDup_cons Hfresh.
    rewrite dict_set_new in Hrest by (apply Hfresh; by left).
    apply IH in Hrest as (tables & -> & Hkeys & Htables); [|done|].
    + exists ((n, df0) :: tables). rewrite <- app_assoc. split; [done|].
      split; [cbn; by rewrite Hkeys|].
      intros name df [[= -> ->] | Hin]%elem_of_cons; [|by apply Htables].
      exists ds. split; [by apply open_flight_nc_ok|done].
    + intros n' Hn'. rewrite fmap_app, not_elem_of_app. cbn.
      rewrite list_elem_of_singleton. split; [apply Hfresh; by right|].
      by intros ->.
Qed.

(** X14. When the scan of a campaign succeeds, the entry it makes for
    the campaign holds, in ascending order of the names, one table for
    each listed name that ends in [.nc], and that table is the result of
    [read_flight_nc] on the netCDF file of that name in the campaign's
    directory. *)
Theorem campaign_tables fs data_dir vars acc campaign entries acc' :
  fs !! (data_dir +:+ "/" +:+ campaign +:+ "/lrt") = Some (Dir entries) ->
  NoDup entries ->
  read_campaign fs data_dir vars acc campaign = ok acc' ->
  exists flight_dict,
    acc' = dict_set campaign flight_dict acc
    /\ fst <$> flight_dict = sorted (List.filter fnmatch_nc entries)
    /\ (forall name df, (name, df) ∈ flight_dict ->
          exists nc,
            fs !! ((data_dir +:+ "/" +:+ campaign +:+ "/lrt") +:+ "/" +:+ name)
            = Some (NcFile nc)
            /\ read_flight_nc nc vars = ok df).
Proof.
  intros Hdir Hnd. unfold read_campaign. cbv zeta.
  rewrite (find_flight_fnames_dir _ _ _ Hdir). cbn [bind ok].
  unfold bind.
  destruct (for_each _ _ _) as [|fd] eqn:Hfd; [done|]. intros [= <-].
  apply read_one_tables in Hfd as (tables & -> & Hkeys & Htables).
  - exists tables. by rewrite app_nil_l.
  - rewrite sorted_Permutation. apply NoDup_ListNoDup, List.NoDup_filter.
    by apply NoDup_ListNoDup.
  - intros n _. apply not_elem_of_nil.
Qed.

(** ** The further properties at the sample files *)

Lemma sample_25hz_shaped name vr :
  variables sample_25hz !! name = Some vr -> seconds_shaped 2 (values vr).
Proof.
  unfold sample_25hz. cbn [variables]. intros H.
  destruct (decide (name = "Time")) as [->|];
    [vm_compute in H; injection H as <-; left; eexists; split; reflexivity|].
  rewrite lookup_insert_ne in H by done.
  destruct (decide (name = "GGALT")) as [->|];
    [vm_compute in H; injection H as <-; left; eexists; split; reflexivity|].
  rewrite lookup_insert_ne in H by done.
  destruct (decide (name = "UIC")) as [->|].
  - vm_compute in H. injection H as <-. right. eexists. split; [reflexivity|].
    split; [reflexivity|]. by repeat constructor.
  - rewrite lookup_insert_ne in H by done. by rewrite lookup_empty in H.
Qed.

Lemma uniform_length_25hz_witness :
  sample_table = collect_25hz sample_25hz ["Time"; "GGALT"; "UIC"]
  /\ (forall name c, (name, c) ∈ sample_table -> col_length c = 2 * 25).
Proof.
  apply (uniform_length_25hz 2 sample_25hz ["Time"; "GGALT"; "UIC"] sample_table).
  - exact sample_25hz_shaped.
  - vm_compute. reflexivity.
Defined.

Lemma columns_1hz_from_file_witness :
  (exists vr v, "Time" ∈ ["Time"] /\ variables sample_bad_units !! "Time" = Some vr
                /\ values vr = Arr1 v
                /\ FloatCol [10%float; 11%float] = FloatCol v)
  \/ (exists vr v u dts,
        "Time" = "datetime" /\ "Time" ∈ ["Time"]
        /\ variables sample_bad_units !! "Time" = Some vr /\ values vr = Arr1 v
        /\ units vr = Some u /\ sfm_to_datetime v u = ok dts
        /\ FloatCol [10%float; 11%float] = DateCol (Some <$> dts)).
Proof.
  apply (columns_1hz_from_file sample_bad_units ["Time"] "Time"
           (FloatCol [10%float; 11%float])).
  assert (collect_1hz sample_bad_units ["Time"]
          = [("Time", FloatCol [10%float; 11%float])]) as ->
    by (vm_compute; reflexivity).
  apply list_elem_of_singleton. reflexivity.
Defined.

Lemma columns_in_request_order_witness :
  keys sample_table `sublist_of` with_datetime ["Time"; "LATC"; "GGALT"; "UIC"].
Proof.
  apply (columns_in_request_order Reader25Hz sample_25hz
           ["Time"; "LATC"; "GGALT"; "UIC"] sample_table).
  vm_compute. reflexivity.
Defined.

Lemma short_variable_all_nan_witness :
  body_25hz sample_one_second "GGALT" []
  = ([] ++ [("GGALT", FloatCol (replicate (length [100%float] * 25) nan))], ok tt).
Proof.
  apply (short_variable_all_nan sample_one_second "GGALT"
           (mk_ncvar None (Arr1 [100%float])) [100%float] []);
    [discriminate | reflexivity | reflexivity | cbn; lia].
Defined.

Lemma units_third_word_only_witness :
  sfm_to_datetime [0%float; 1.5%float]
    ("hours" +:+ " " +:+ "after" +:+ " " +:+ "2020-01-01" +:+ " " +:+ "06:00:00 +0100")
  = sfm_to_datetime [0%float; 1.5%float] ("seconds since " +:+ "2020-01-01").
Proof.
  apply (units_third_word_only [0%float; 1.5%float] "hours" "after" "2020-01-01"
           "06:00:00 +0100"); reflexivity.
Defined.

Lemma nan_offset_raises_witness :
  sfm_to_datetime ([0%float] ++ nan :: [1%float]) good_units = inl ValueError.
Proof.
  apply (nan_offset_raises [0%float] [1%float] good_units).
  constructor; [eexists; vm_compute; reflexivity | constructor].
Defined.

Lemma short_units_raise_witness :
  sfm_to_datetime [0%float] "seconds since" = inl IndexError.
Proof.
  apply (short_units_raise [0%float] "seconds since").
  - constructor; [eexists; vm_compute; reflexivity | constructor].
  - vm_compute. lia.
Defined.

Lemma find_flight_fnames_spec_witness :
  exists names,
    find_flight_fnames sample_fs "data/ORCAS/lrt" = ok names
    /\ Sorted String.le names
    /\ (forall name, name ∈ names
                     <-> name ∈ ["rf02.nc"; "notes.txt"; "rf01.nc"]
                         /\ exists stem, name = stem +:+ ".nc")
    /\ (forall fs' dir' entries',
          fs' !! dir' = Some (Dir entries') ->
          entries' ≡ₚ ["rf02.nc"; "notes.txt"; "rf01.nc"] ->
          find_flight_fnames fs' dir' = ok names).
Proof.
  apply (find_flight_fnames_spec sample_fs "data/ORCAS/lrt"
           ["rf02.nc"; "notes.txt"; "rf01.nc"]).
  reflexivity.
Defined.

Lemma missing_directory_aborts_witness :
  read_all_flights sample_fs "data" (["CSET"] ++ "SOCRATES" :: ["ORCAS"]) vars_to_read
  = inl FileNotFoundError.
Proof.
  apply (missing_directory_aborts sample_fs "data" vars_to_read ["CSET"] "SOCRATES"
           ["ORCAS"] [("CSET", [])]); vm_compute; reflexivity.
Defined.

Lemma scan_has_every_campaign_witness :
  NoDup (fst <$> sample_scan)
  /\ (forall c, c ∈ (fst <$> sample_scan) <-> c ∈ ["ORCAS"]).
Proof.
  apply (scan_has_every_campaign sample_fs "data" ["ORCAS"] ["Time"] sample_scan).
  vm_compute. reflexivity.
Defined.

Lemma campaign_tables_witness :
  exists flight_dict,
    sample_scan = dict_set "ORCAS" flight_dict []
    /\ fst <$> flight_dict
       = sorted (List.filter fnmatch_nc ["rf02.nc"; "notes.txt"; "rf01.nc"])
    /\ (forall name df, (name, df) ∈ flight_dict ->
          exists nc,
            sample_fs !! (("data" +:+ "/" +:+ "ORCAS" +:+ "/lrt") +:+ "/" +:+ name)
            = Some (NcFile nc)
            /\ read_flight_nc nc ["Time"] = ok df).
Proof.
  apply (campaign_tables sample_fs "data" ["Time"] [] "ORCAS"
           ["rf02.nc"; "notes.txt"; "rf01.nc"] sample_scan).
  - reflexivity.
  - apply NoDup_ListNoDup. repeat constructor; cbn; intuition discriminate.
  - vm_compute. reflexivity.
Defined.
